(** * PrinterMatiasERP: the print orchestration pipeline of [main.go]

    A shallow embedding of the printer gateway: the enumeration parser
    ([ListPrinters], [PrinterExists], [parsePrinterDetails], [GetPrinters]),
    the download-then-dispatch flow ([downloadFile], [PrintPDFFromURL]), the
    drawer command ([OpenDrawer]) and the [/print] handler.

    Go strings are byte strings: they are modelled by [string], whose
    characters are the 256 values of [ascii].  A [map[string]string] is a
    [gmap string string].  Code that talks to the operating system runs in a
    small state monad over a [World] that records every external action. *)

From Stdlib Require Import Ascii String.
From stdpp Require Import gmap strings list pretty.

Local Open Scope string_scope.
Local Open Scope list_scope.

(** ** The [strings] package, as far as [main.go] calls it *)

Module strings.

(** [strings.IndexByte]: position of the first [c] in [s]; Go's [-1] is
    [None]. *)
Fixpoint IndexByte (s : string) (c : ascii) : option nat :=
  match s with
  | EmptyString => None
  | String x r =>
      if Ascii.eqb x c then Some 0
      else match IndexByte r c with
           | Some i => Some (S i)
           | None => None
           end
  end.

(** [strings.HasPrefix]. *)
Fixpoint HasPrefix (s pre : string) : bool :=
  match pre, s with
  | EmptyString, _ => true
  | String _ _, EmptyString => false
  | String p pre', String x s' => Ascii.eqb x p && HasPrefix s' pre'
  end.

(** [strings.Contains]: [substr] occurs at some offset of [s]. *)
Fixpoint Contains (s substr : string) : bool :=
  HasPrefix s substr ||
  match s with
  | EmptyString => false
  | String _ r => Contains r substr
  end.

(** [strings.Cut] for a one-byte separator: the text before and after the
    first [sep], or [None] when [s] holds no [sep]. *)
Fixpoint Cut (s : string) (sep : ascii) : option (string * string) :=
  match s with
  | EmptyString => None
  | String x r =>
      if Ascii.eqb x sep then Some (EmptyString, r)
      else match Cut r sep with
           | Some (before, after) => Some (String x before, after)
           | None => None
           end
  end.

(** [strings.Split] for a one-byte separator (every call of [main.go] has
    one): the pieces between the separators, [Count(s, sep) + 1] of them,
    so the empty string gives one empty piece. *)
Fixpoint Split (s : string) (sep : ascii) : list string :=
  match s with
  | EmptyString => [EmptyString]
  | String x r =>
      if Ascii.eqb x sep then EmptyString :: Split r sep
      else match Split r sep with
           | piece :: pieces => String x piece :: pieces
           | [] => [String x EmptyString]
           end
  end.

(** [strings.SplitN] for a one-byte separator and [n >= 0]: at most [n]
    pieces, the last one being the unsplit remainder. *)
Fixpoint SplitN (s : string) (sep : ascii) (n : nat) : list string :=
  match n with
  | 0 => []
  | S n' =>
      match n' with
      | 0 => [s]
      | S _ =>
          match Cut s sep with
          | None => [s]
          | Some (before, after) => before :: SplitN after sep n'
          end
      end
  end.

(** [strings.Join]. *)
Fixpoint Join (elems : list string) (sep : string) : string :=
  match elems with
  | [] => EmptyString
  | [e] => e
  | e :: rest => e +:+ sep +:+ Join rest sep
  end.

(** The white space of [unicode.IsSpace], in UTF-8: the six ASCII
    characters of [asciiSpace], U+0085, U+00A0, U+1680, U+2000..U+200A,
    U+2028, U+2029, U+202F, U+205F and U+3000. *)
Definition bytes (l : list nat) : string :=
  string_of_list_ascii (map ascii_of_nat l).

Definition spaceRunes : list string :=
  map bytes
    [ [9]; [10]; [11]; [12]; [13]; [32];
      [194; 133]; [194; 160]; [225; 154; 128];
      [226; 128; 128]; [226; 128; 129]; [226; 128; 130]; [226; 128; 131];
      [226; 128; 132]; [226; 128; 133]; [226; 128; 134]; [226; 128; 135];
      [226; 128; 136]; [226; 128; 137]; [226; 128; 138];
      [226; 128; 168]; [226; 128; 169]; [226; 128; 175];
      [226; 129; 159]; [227; 128; 128] ].

(** [s] without [pre] in front, when it starts with it. *)
Fixpoint CutPrefix (s pre : string) : option string :=
  match pre, s with
  | EmptyString, _ => Some s
  | String _ _, EmptyString => None
  | String p pre', String x s' =>
      if Ascii.eqb x p then CutPrefix s' pre' else None
  end.

(** One leading rune of [runes] taken off [s]. *)
Fixpoint dropRune (runes : list string) (s : string) : option string :=
  match runes with
  | [] => None
  | r :: rest =>
      match CutPrefix s r with
      | Some s' => Some s'
      | None => dropRune rest s
      end
  end.

(** [strings.TrimLeftFunc] restricted to a finite set of runes; every
    round removes at least one byte, so [length s] rounds are enough. *)
Fixpoint trimLeftRunes (fuel : nat) (runes : list string) (s : string)
  : string :=
  match fuel with
  | 0 => s
  | S fuel' =>
      match dropRune runes s with
      | Some s' => trimLeftRunes fuel' runes s'
      | None => s
      end
  end.

Definition TrimLeftSpace (s : string) : string :=
  trimLeftRunes (String.length s) spaceRunes s.

(** Trimming on the right is trimming the mirrored string on the left of
    the mirrored runes: a rune is the last one of [s] exactly when [s]
    ends with its encoding. *)
Definition TrimRightSpace (s : string) : string :=
  String.rev
    (trimLeftRunes (String.length s) (map String.rev spaceRunes)
       (String.rev s)).

(** [strings.TrimSpace]. *)
Definition TrimSpace (s : string) : string :=
  TrimRightSpace (TrimLeftSpace s).

End strings.

Arguments strings.IndexByte s%_string c%_char.
Arguments strings.Cut s%_string sep%_char.
Arguments strings.Split s%_string sep%_char.
Arguments strings.SplitN s%_string sep%_char n%_nat.

(** ** Errors *)

(** A Go [error]: a plain message ([errors.New], [fmt.Errorf] without
    [%w]) or a message wrapping its cause ([fmt.Errorf] with [%w]). *)
Inductive error : Type :=
| errorString (msg : string)
| wrapError (msg : string) (cause : error).

(** The method [Error()]. *)
Definition Error (e : error) : string :=
  match e with
  | errorString msg => msg
  | wrapError msg _ => msg
  end.

(** [fmt.Errorf(prefix + "%w", err)]. *)
Definition Errorf_w (prefix : string) (err : error) : error :=
  wrapError (prefix +:+ Error err) err.

(** A Go result pair [(value, error)]. *)
Inductive result (A : Type) : Type :=
| Ok (a : A)
| Err (e : error).
Arguments Ok {A} a.
Arguments Err {A} e.

(** ** [parsePrinterDetails] *)

(** The loop over [properties], with the map built so far. *)
Fixpoint parseProperties (properties : list string)
    (printerMap : gmap string string) : result (gmap string string) :=
  match properties with
  | [] => Ok printerMap
  | prop :: rest =>
      match strings.SplitN prop "=" 2 with
      | [k; v] => parseProperties rest (<[k := v]> printerMap)
      | _ => Err (errorString ("formato de propiedad inválido: " +:+ prop))
      end
  end.

Definition parsePrinterDetails (details : string)
  : result (gmap string string) :=
  parseProperties (strings.Split details ";") ∅.

(** ** The outside world *)

(** What a run does to the outside: processes started, requests sent, files
    touched, lines printed and logged, oldest first. *)
Inductive Event : Type :=
| EvExec (name : string) (args : list string)
| EvHTTPGet (url : string)
| EvCreateTemp (path : string)
| EvCopy (path : string)
| EvRemove (path : string)
| EvStdout (text : string)
| EvLog (line : string).

(** The part of an [http.Response] that [downloadFile] reads; [BodyCopy] is
    the error of [io.Copy] from the body into the temporary file, if any. *)
Record Response : Type := {
  StatusCode : Z;
  Status : string;
  BodyCopy : option error
}.

(** How the outside answers: the combined output and exit error of a process,
    the reply to a GET, the name [os.CreateTemp] picks, the error of
    [os.Remove] on a path, and how [fmt] prints [cmd.Stderr]. *)
Record Env : Type := {
  exec_run : string -> list string -> string * option error;
  http_get : string -> result Response;
  create_temp : result string;
  remove_err : string -> option error;
  stderr_text : string
}.

(** The events so far and the temporary files on disk. *)
Record World : Type := {
  trace : list Event;
  files : gset string
}.

Definition emit (e : Event) (w : World) : World :=
  {| trace := trace w ++ [e]; files := files w |}.

(** A computation that may fail with a Go [error] and acts on the world. *)
Definition IO (A : Type) : Type := World -> result A * World.

Definition ret {A : Type} (a : A) : IO A := fun w => (Ok a, w).

Definition fail {A : Type} (e : error) : IO A := fun w => (Err e, w).

Definition bind {A B : Type} (m : IO A) (k : A -> IO B) : IO B :=
  fun w =>
    match m w with
    | (Ok a, w') => k a w'
    | (Err e, w') => (Err e, w')
    end.

(** [x, err := m; if err != nil { return fmt.Errorf(prefix + "%w", err) }]. *)
Definition wrapping {A : Type} (prefix : string) (m : IO A) : IO A :=
  fun w =>
    match m w with
    | (Ok a, w') => (Ok a, w')
    | (Err e, w') => (Err (Errorf_w prefix e), w')
    end.

(** An action without result, such as a log line. *)
Definition act (f : World -> World) : IO unit := fun w => (Ok tt, f w).

(** [defer cleanup()] followed by [body]: the cleanup runs when the body has
    returned, whatever it returned, and cannot change the returned value. *)
Definition deferring {A : Type} (cleanup : World -> World) (body : IO A)
  : IO A :=
  fun w => let (r, w') := body w in (r, cleanup w').

Declare Scope io_scope.
Delimit Scope io_scope with io.
Notation "x <- m ;; k" := (bind m (fun x => k))
  (at level 100, m at next level, right associativity) : io_scope.
Notation "m ;;; k" := (bind m (fun _ => k))
  (at level 100, right associativity) : io_scope.

(** ** Logger *)

Definition Logger_Info (message : string) : World -> World :=
  emit (EvLog ("[INFO] " +:+ message)).
Definition Logger_Warn (message : string) : World -> World :=
  emit (EvLog ("[WARN] " +:+ message)).
Definition Logger_Error (message : string) : World -> World :=
  emit (EvLog ("[ERROR] " +:+ message)).
(** The formatted variants take the message already formatted. *)
Definition Logger_Infof := Logger_Info.
Definition Logger_Warnf := Logger_Warn.
Definition Logger_Errorf := Logger_Error.

(** ** Interfaces *)

(** An interface value is the table of its methods, bound to the receiver. *)
Record PrinterManager : Type := {
  ListPrinters : IO (list string);
  PrinterExists : string -> IO bool
}.

Record DocumentPrinter : Type := {
  PrintFile : string -> string -> IO unit
}.

Record DrawerOpener : Type := {
  DrawerOpener_OpenDrawer : string -> IO unit
}.

Record PrinterService : Type := {
  GetPrinters : IO (list (gmap string string));
  PrintPDFFromURL : string -> string -> IO unit;
  OpenDrawer : string -> IO unit
}.

(** The fields of [url.URL] that matter here. *)
Record URL : Type := {
  Scheme : string;
  Host : string;
  Path : string
}.

Definition dquote : string := String (ascii_of_nat 34) EmptyString.

(** The arguments of the PowerShell enumeration. *)
Definition listPrintersArgs : list string :=
  [ "-Command";
    "Get-Printer | Select-Object Name, DriverName, PortName, PrinterStatus, Location | ForEach-Object { "
    +:+ dquote
    +:+ "Name=$($_.Name);DriverName=$($_.DriverName);PortName=$($_.PortName);PrinterStatus=$($_.PrinterStatus);Location=$($_.Location)"
    +:+ dquote +:+ " }" ].

(** The loop of [ListPrinters] over the lines of the output. *)
Fixpoint trimmedLines (lines printers : list string) : list string :=
  match lines with
  | [] => printers
  | line :: rest =>
      let trimmed := strings.TrimSpace line in
      if String.eqb trimmed EmptyString then trimmedLines rest printers
      else trimmedLines rest (printers ++ [trimmed])
  end.

(** The loop of [PrinterExists] over the printers. *)
Fixpoint anyListed (printers : list string) (name : string) : bool :=
  match printers with
  | [] => false
  | p :: rest =>
      if strings.Contains p ("Name=" +:+ name +:+ ";") then true
      else anyListed rest name
  end.

(** The loop of [GetPrinters]: a line that does not parse is logged and
    skipped. *)
Fixpoint collectPrinters (printerStrings : list string)
    (printers : list (gmap string string)) (w : World)
  : list (gmap string string) * World :=
  match printerStrings with
  | [] => (printers, w)
  | ps :: rest =>
      match parsePrinterDetails ps with
      | Err err =>
          collectPrinters rest printers
            (Logger_Errorf
               ("Error al parsear detalles de impresora: " +:+ Error err) w)
      | Ok details => collectPrinters rest (printers ++ [details]) w
      end
  end.

Record ExternalDocumentPrinter : Type := { PDFPrinterPath : string }.
Record WindowsDrawerOpener : Type := { DrawerCommandPath : string }.

(** The [Logger] field is left out: the log is part of the world. *)
Record DefaultPrinterService : Type := {
  Service_PrinterManager : PrinterManager;
  Service_DocumentPrinter : DocumentPrinter;
  Service_DrawerOpener : DrawerOpener
}.

(** ** The operating system calls *)

Section Gateway.

(** The answers of the outside, and [url.ParseRequestURI] of Go's
    [net/url]: the service is verified for whatever they are. *)
Variable env : Env.
Variable ParseRequestURI : string -> result URL.

(** [cmd.Run()] / [cmd.CombinedOutput()]: the output and the error. *)
Definition os_exec (name : string) (args : list string) (w : World)
  : (string * option error) * World :=
  (exec_run env name args, emit (EvExec name args) w).

(** [client.Get(fileURL)]. *)
Definition http_Get (fileURL : string) : IO Response :=
  fun w => (http_get env fileURL, emit (EvHTTPGet fileURL) w).

(** [os.CreateTemp] with the pattern [*.pdf]: on success the file is on
    disk. *)
Definition os_CreateTemp : IO string :=
  fun w =>
    match create_temp env with
    | Ok path =>
        (Ok path,
         {| trace := trace w ++ [EvCreateTemp path];
            files := {[path]} ∪ files w |})
    | Err e => (Err e, w)
    end.

(** [io.Copy(tempFile, resp.Body)]. *)
Definition io_Copy (path : string) (resp : Response) : IO unit :=
  fun w =>
    match BodyCopy resp with
    | Some e => (Err e, emit (EvCopy path) w)
    | None => (Ok tt, emit (EvCopy path) w)
    end.

(** [os.Remove(path)]: on success the file is gone. *)
Definition os_Remove (path : string) : IO unit :=
  fun w =>
    match remove_err env path with
    | Some e => (Err e, emit (EvRemove path) w)
    | None =>
        (Ok tt,
         {| trace := trace w ++ [EvRemove path];
            files := files w ∖ {[path]} |})
    end.

(** ** [WindowsPrinterManager] *)

Definition WindowsPrinterManager_ListPrinters : IO (list string) :=
  fun w =>
    match os_exec "powershell" listPrintersArgs w with
    | ((out, Some err), w') =>
        (Err (wrapError
                ("error ejecutando PowerShell: " +:+ Error err
                 +:+ ", salida: " +:+ out) err), w')
    | ((out, None), w') =>
        (Ok (trimmedLines (strings.Split out "010") []), w')
    end.

Definition WindowsPrinterManager_PrinterExists (name : string) : IO bool :=
  (printers <- wrapping "error al listar impresoras: "
                 WindowsPrinterManager_ListPrinters ;;
   ret (anyListed printers name))%io.

Definition WindowsPrinterManager : PrinterManager :=
  {| ListPrinters := WindowsPrinterManager_ListPrinters;
     PrinterExists := WindowsPrinterManager_PrinterExists |}.

(** ** [ExternalDocumentPrinter] *)

Definition ExternalDocumentPrinter_PrintFile (e : ExternalDocumentPrinter)
    (filePath printer : string) : IO unit :=
  fun w =>
    let w1 :=
      emit (EvStdout ("Imprimiendo archivo " +:+ filePath
                      +:+ " en impresora " +:+ printer
                      +:+ String "010" EmptyString)) w in
    match os_exec (PDFPrinterPath e) [filePath; printer] w1 with
    | ((_, Some err), w2) =>
        (Err (errorString
                ("error al ejecutar PDFPrinter: " +:+ Error err
                 +:+ ", salida: " +:+ stderr_text env)), w2)
    | ((_, None), w2) => (Ok tt, w2)
    end.

Definition ExternalDocumentPrinter_DocumentPrinter
    (e : ExternalDocumentPrinter) : DocumentPrinter :=
  {| PrintFile := ExternalDocumentPrinter_PrintFile e |}.

(** ** [WindowsDrawerOpener] *)

Definition WindowsDrawerOpener_OpenDrawer (o : WindowsDrawerOpener)
    (printerName : string) : IO unit :=
  fun w =>
    match os_exec "powershell"
            [ "-NoProfile"; "-ExecutionPolicy"; "Bypass"; "-File";
              DrawerCommandPath o; "-Printer"; printerName ] w with
    | ((output, Some err), w') =>
        (Err (errorString
                ("error al ejecutar comando de apertura de cajón: "
                 +:+ Error err +:+ ", salida: " +:+ output)), w')
    | ((_, None), w') => (Ok tt, w')
    end.

Definition WindowsDrawerOpener_DrawerOpener (o : WindowsDrawerOpener)
  : DrawerOpener :=
  {| DrawerOpener_OpenDrawer := WindowsDrawerOpener_OpenDrawer o |}.

(** ** [downloadFile] *)

(** The two [Close] calls it defers leave no trace in the model. *)
Definition downloadFile (fileURL : string) : IO string :=
  (resp <- http_Get fileURL ;;
   if negb (StatusCode resp =? 200)%Z then
     fail (errorString
             ("el servidor retornó estado no OK: "
              +:+ pretty (StatusCode resp) +:+ " " +:+ Status resp))
   else
     tempFile <- os_CreateTemp ;;
     io_Copy tempFile resp ;;;
     ret tempFile)%io.

(** ** [DefaultPrinterService] *)

Definition DefaultPrinterService_GetPrinters (d : DefaultPrinterService)
  : IO (list (gmap string string)) :=
  (printerStrings <- wrapping "error al listar impresoras: "
                       (ListPrinters (Service_PrinterManager d)) ;;
   fun w =>
     let (printers, w') := collectPrinters printerStrings [] w in
     (Ok printers, w'))%io.

(** The deferred function of [PrintPDFFromURL]. *)
Definition removeTemp (filePath : string) (w : World) : World :=
  match os_Remove filePath w with
  | (Err err, w') =>
      Logger_Errorf
        ("Error al eliminar archivo temporal: " +:+ Error err) w'
  | (Ok _, w') => w'
  end.

Definition DefaultPrinterService_PrintPDFFromURL
    (d : DefaultPrinterService) (fileURL printerName : string) : IO unit :=
  (exists_ <- wrapping "error al verificar la impresora: "
                (PrinterExists (Service_PrinterManager d) printerName) ;;
   if negb exists_ then
     fail (errorString ("la impresora '" +:+ printerName +:+ "' no existe"))
   else
     match ParseRequestURI fileURL with
     | Err err => fail (Errorf_w "URL inválida: " err)
     | Ok parsedURL =>
         if negb (String.eqb (Scheme parsedURL) "http")
            && negb (String.eqb (Scheme parsedURL) "https")
         then
           fail (errorString
                   ("esquema de URL no soportado: " +:+ Scheme parsedURL))
         else
           filePath <- wrapping "error al descargar el archivo: "
                         (downloadFile fileURL) ;;
           deferring (removeTemp filePath)
             (act (Logger_Infof ("Archivo descargado: " +:+ filePath)) ;;;
              wrapping "error al imprimir el archivo: "
                (PrintFile (Service_DocumentPrinter d) filePath printerName))
     end)%io.

Definition DefaultPrinterService_OpenDrawer (d : DefaultPrinterService)
    (printerName : string) : IO unit :=
  (exists_ <- wrapping "error al verificar la impresora: "
                (PrinterExists (Service_PrinterManager d) printerName) ;;
   if negb exists_ then
     fail (errorString ("la impresora '" +:+ printerName +:+ "' no existe"))
   else
     wrapping "error al abrir el cajón: "
       (DrawerOpener_OpenDrawer (Service_DrawerOpener d) printerName))%io.

Definition DefaultPrinterService_PrinterService (d : DefaultPrinterService)
  : PrinterService :=
  {| GetPrinters := DefaultPrinterService_GetPrinters d;
     PrintPDFFromURL := DefaultPrinterService_PrintPDFFromURL d;
     OpenDrawer := DefaultPrinterService_OpenDrawer d |}.

(** The service [main] builds from the configuration. *)
Definition mainService (pdfPrinterPath drawerCommandPath : string)
  : DefaultPrinterService :=
  {| Service_PrinterManager := WindowsPrinterManager;
     Service_DocumentPrinter :=
       ExternalDocumentPrinter_DocumentPrinter
         {| PDFPrinterPath := pdfPrinterPath |};
     Service_DrawerOpener :=
       WindowsDrawerOpener_DrawerOpener
         {| DrawerCommandPath := drawerCommandPath |} |}.

End Gateway.

(** ** The [/print] handler *)

(** The body of a [/print] request, as [json.Decode] fills it. *)
Record PrintRequest : Type := {
  Req_URL : string;
  Req_Printer : string
}.

(** An incoming request: its method and its decoded body, or the error of
    the decoder. *)
Record HTTPRequest : Type := {
  Method : string;
  Body : result PrintRequest
}.

(** What [WriteJSON] sends: a status and a JSON object of strings. *)
Record HTTPReply : Type := {
  reply_status : Z;
  reply_body : gmap string string
}.

Record Handlers : Type := { Service : PrinterService }.

Definition WriteJSON (status : Z) (data : gmap string string) : HTTPReply :=
  {| reply_status := status; reply_body := data |}.

Definition WriteErrorJSON (status : Z) (message : string)
    (err : option error) : HTTPReply :=
  let resp : gmap string string := {[ "error" := message ]} in
  match err with
  | Some e => WriteJSON status (<["details" := Error e]> resp)
  | None => WriteJSON status resp
  end.

Definition PrintHandler (h : Handlers) (r : HTTPRequest) (w : World)
  : HTTPReply * World :=
  let w0 := Logger_Info "Received request: /print" w in
  if negb (String.eqb (Method r) "POST") then
    (WriteErrorJSON 405 "Método HTTP no permitido" None,
     Logger_Warnf ("Método HTTP no permitido: " +:+ Method r) w0)
  else
    match Body r with
    | Err err =>
        (WriteErrorJSON 400 "Solicitud JSON inválida" (Some err),
         Logger_Warnf ("Error al decodificar JSON: " +:+ Error err) w0)
    | Ok req =>
        if String.eqb (Req_URL req) EmptyString || String.eqb (Req_Printer req) EmptyString then
          (WriteErrorJSON 400 "URL o impresora no especificados" None,
           Logger_Warn "URL o impresora no especificados" w0)
        else
          match PrintPDFFromURL (Service h) (Req_URL req) (Req_Printer req) w0
          with
          | (Err err, w1) =>
              (WriteErrorJSON 500 "Error al imprimir el archivo" (Some err),
               Logger_Errorf ("Error al imprimir: " +:+ Error err) w1)
          | (Ok _, w1) =>
              (WriteJSON 200
                 {[ "message" := "PDF enviado a la impresora exitosamente." ]},
               w1)
          end
    end.

(** The handlers [main] wires to the service. *)
Definition mainHandlers (env : Env) (ParseRequestURI : string -> result URL)
    (pdfPrinterPath drawerCommandPath : string) : Handlers :=
  {| Service :=
       DefaultPrinterService_PrinterService env ParseRequestURI
         (mainService env pdfPrinterPath drawerCommandPath) |}.

(** ** Vocabulary of the properties *)

(** A property token is well formed when it holds an ['=']; a line is well
    formed when each of its [';']-separated tokens is. *)
Definition wellFormedProperty (prop : string) : bool :=
  match strings.IndexByte prop "=" with
  | Some _ => true
  | None => false
  end.

Definition wellFormedLine (line : string) : bool :=
  forallb wellFormedProperty (strings.Split line ";").

(** The text [k=v] of a pair, and the line of a list of pairs. *)
Definition propertyText (kv : string * string) : string :=
  fst kv +:+ "=" +:+ snd kv.

Definition lineOf (pairs : list (string * string)) : string :=
  strings.Join (map propertyText pairs) ";".

(** The map a list of pairs denotes when later pairs overwrite earlier
    ones. *)
Definition recordOf (pairs : list (string * string)) (m : gmap string string)
  : gmap string string :=
  foldl (fun acc kv => <[fst kv := snd kv]> acc) m pairs.

(** A pair fit for a line: no ['='] nor [';'] in the key, no [';'] in the
    value. *)
Definition cleanPair (kv : string * string) : Prop :=
  strings.IndexByte (fst kv) "=" = None /\
  strings.IndexByte (fst kv) ";" = None /\
  strings.IndexByte (snd kv) ";" = None.

(** A string without [';'] and without ['=']. *)
Definition noSeparator (p : string) : Prop :=
  strings.IndexByte p ";" = None /\ strings.IndexByte p "=" = None.

(** A line of the output that [ListPrinters] drops: white space only. *)
Definition blankLine (line : string) : bool :=
  String.eqb (strings.TrimSpace line) EmptyString.

(** The non-blank lines of an output that are well formed, and those that
    are not. *)
Definition goodLine (line : string) : bool :=
  negb (blankLine line) && wellFormedLine line.

Definition badLine (line : string) : bool :=
  negb (blankLine line) && negb (wellFormedLine line).

(** Some record has [name] as its [Name]. *)
Definition recordNamed (name : string) (records : list (gmap string string))
  : bool :=
  existsb (fun r => bool_decide (r !! "Name" = Some name)) records.

(** The non-blank lines of an enumeration output, trimmed. *)
Definition printerLines (out : string) : list string :=
  filter (fun l => l <> EmptyString) (map strings.TrimSpace (strings.Split out "010")).

Definition isExec (e : Event) : bool :=
  match e with EvExec _ _ => true | _ => false end.
Definition isHTTPGet (e : Event) : bool :=
  match e with EvHTTPGet _ => true | _ => false end.

(** The parse warning [GetPrinters] logs for a line. *)
Definition parseWarning (line : string) : option Event :=
  match parsePrinterDetails line with
  | Err err =>
      Some (EvLog ("[ERROR] Error al parsear detalles de impresora: "
                   +:+ Error err))
  | Ok _ => None
  end.

(** The ways a [/print] request fails validation: a field is empty; the
    enumeration lists no line for the printer; or the printer is listed and
    the URL does not parse or has a scheme other than http and https. *)
Inductive validationFailure (env : Env)
    (ParseRequestURI : string -> result URL) (req : PrintRequest) : Prop :=
| EmptyField :
    Req_URL req = EmptyString \/ Req_Printer req = EmptyString ->
    validationFailure env ParseRequestURI req
| UnknownPrinter (out : string) :
    Req_URL req <> EmptyString -> Req_Printer req <> EmptyString ->
    exec_run env "powershell" listPrintersArgs = (out, None) ->
    anyListed (printerLines out) (Req_Printer req) = false ->
    validationFailure env ParseRequestURI req
| BadURL (out : string) :
    Req_URL req <> EmptyString -> Req_Printer req <> EmptyString ->
    exec_run env "powershell" listPrintersArgs = (out, None) ->
    anyListed (printerLines out) (Req_Printer req) = true ->
    (forall u, ParseRequestURI (Req_URL req) = Ok u ->
               Scheme u <> "http" /\ Scheme u <> "https") ->
    validationFailure env ParseRequestURI req.

(** The processes a validation failure has started when it is reported:
    none for an empty field, the enumeration otherwise. *)
Definition launchesOf (req : PrintRequest) : list Event :=
  if String.eqb (Req_URL req) EmptyString || String.eqb (Req_Printer req) EmptyString then []
  else [EvExec "powershell" listPrintersArgs].

(** The environment with another answer of [os.Remove]. *)
Definition withRemoveErr (env : Env) (r : string -> option error) : Env :=
  {| exec_run := exec_run env;
     http_get := http_get env;
     create_temp := create_temp env;
     remove_err := r;
     stderr_text := stderr_text env |}.

(** ** Sample runs *)

(** The scheme of a raw URL, found as [getScheme] of [net/url] finds it. *)
Definition isSchemeLetter (c : ascii) : bool :=
  let n := nat_of_ascii c in
  ((97 <=? n) && (n <=? 122) || (65 <=? n) && (n <=? 90))%nat.

Definition isSchemeOther (c : ascii) : bool :=
  let n := nat_of_ascii c in
  ((48 <=? n) && (n <=? 57))%nat || Ascii.eqb c "+" || Ascii.eqb c "-"
  || Ascii.eqb c ".".

Fixpoint getScheme (first : bool) (rawURL : string) : option (string * string) :=
  match rawURL with
  | EmptyString => None
  | String c rest =>
      if isSchemeLetter c then
        match getScheme false rest with
        | Some (scheme, path) => Some (String c scheme, path)
        | None => None
        end
      else if isSchemeOther c then
        if first then None
        else match getScheme false rest with
             | Some (scheme, path) => Some (String c scheme, path)
             | None => None
             end
      else if Ascii.eqb c ":" then
        if first then None else Some (EmptyString, rest)
      else None
  end.

(** A stand-in for [url.ParseRequestURI] in the sample runs: it accepts a
    raw URL that has a scheme, or starts with a slash, and reports the
    scheme. *)
Definition sampleParseRequestURI (rawURL : string) : result URL :=
  match getScheme true rawURL with
  | Some (scheme, rest) =>
      Ok {| Scheme := scheme; Host := EmptyString; Path := rest |}
  | None =>
      if strings.HasPrefix rawURL "/" then
        Ok {| Scheme := EmptyString; Host := EmptyString; Path := rawURL |}
      else
        Err (wrapError ("parse " +:+ rawURL +:+ ": invalid URI for request")
               (errorString "invalid URI for request"))
  end.

(** An outside where the enumeration prints [out], the download answers
    [resp] and the temporary file is [tmp]; every other process exits with
    [printErr], and [os.Remove] answers [rmErr]. *)
Definition sampleEnv (out : string) (resp : result Response) (tmp : string)
    (printErr rmErr : option error) : Env :=
  {| exec_run := fun name _ =>
       if String.eqb name "powershell" then (out, None) else (EmptyString, printErr);
     http_get := fun _ => resp;
     create_temp := Ok tmp;
     remove_err := fun _ => rmErr;
     stderr_text := "&{}" |}.

Definition emptyWorld : World := {| trace := []; files := ∅ |}.

(** One printer, [HP], whose driver is called [HP2]. *)
Definition sampleOutput : string :=
  "Name=HP;DriverName=HP2;PortName=USB001;PrinterStatus=Normal;Location="
  +:+ String "013" (String "010" EmptyString).

(** Two printers, a line that is no record, and a blank line. *)
Definition sampleListing : string :=
  "Name=HP;DriverName=HP2;PortName=USB001;PrinterStatus=Normal;Location="
  +:+ String "013" (String "010" EmptyString)
  +:+ "Get-Printer : access denied"
  +:+ String "013" (String "010" EmptyString)
  +:+ "   "
  +:+ String "013" (String "010" EmptyString)
  +:+ "Name=Caja;DriverName=EPSON TM-T20II;PortName=USB002;PrinterStatus=Normal;Location=Tienda"
  +:+ String "013" (String "010" EmptyString).

Definition okResponse : Response :=
  {| StatusCode := 200; Status := "200 OK"; BodyCopy := None |}.

(** A reply whose body breaks off while it is copied. *)
Definition brokenResponse : Response :=
  {| StatusCode := 200; Status := "200 OK";
     BodyCopy := Some (errorString "unexpected EOF") |}.

(** ** Configuration *)

(** The [strconv] package, as far as [main.go] calls it.  The callers only
    test the returned error against [nil], so a failure is [None]. *)
Module strconv.

(** The value of a decimal digit. *)
Definition digitValue (c : ascii) : option Z :=
  let n := nat_of_ascii c in
  if ((48 <=? n) && (n <=? 57))%nat then Some (Z.of_nat n - 48)%Z else None.

(** The loop [n = n*10 + int(ch)] over the digits. *)
Fixpoint parseDigits (acc : Z) (s : string) : option Z :=
  match s with
  | EmptyString => Some acc
  | String c r =>
      match digitValue c with
      | Some d => parseDigits (acc * 10 + d)%Z r
      | None => None
      end
  end.

(** [strconv.Atoi] for a 64-bit [int]: an optional sign and at least one
    decimal digit, nothing else, and a value that fits. *)
Definition Atoi (s : string) : option Z :=
  match s with
  | EmptyString => None
  | String c r =>
      let digits := if Ascii.eqb c "-" || Ascii.eqb c "+" then r else s in
      match digits with
      | EmptyString => None
      | String _ _ =>
          match parseDigits 0 digits with
          | Some n =>
              let v := if Ascii.eqb c "-" then (- n)%Z else n in
              if ((- 2 ^ 63 <=? v) && (v <? 2 ^ 63))%Z then Some v else None
          | None => None
          end
      end
  end.

(** [strconv.ParseBool]: twelve spellings and no other. *)
Definition ParseBool (str : string) : option bool :=
  if existsb (String.eqb str) ["1"; "t"; "T"; "TRUE"; "true"; "True"]
  then Some true
  else if existsb (String.eqb str) ["0"; "f"; "F"; "FALSE"; "false"; "False"]
  then Some false
  else None.

End strconv.

(** The loop of [splitAndTrim] over the parts. *)
Fixpoint splitAndTrimLoop (parts result : list string) : list string :=
  match parts with
  | [] => result
  | part :: rest =>
      let trimmed := strings.TrimSpace part in
      if negb (String.eqb trimmed EmptyString)
      then splitAndTrimLoop rest (result ++ [trimmed])
      else splitAndTrimLoop rest result
  end.

(** [splitAndTrim], for the one-byte separators it is called with. *)
Definition splitAndTrim (s : string) (sep : ascii) : list string :=
  splitAndTrimLoop (strings.Split s sep) [].

Arguments splitAndTrim s%_string sep%_char.

Section Environment.

(** [os.LookupEnv]: the value of a variable of the process, if it is set. *)
Variable LookupEnv : string -> option string.

Definition getEnv (key defaultVal : string) : string :=
  match LookupEnv key with
  | Some val => val
  | None => defaultVal
  end.

Definition getEnvAsInt (key : string) (defaultVal : Z) : Z :=
  match LookupEnv key with
  | Some valStr =>
      match strconv.Atoi valStr with
      | Some val => val
      | None => defaultVal
      end
  | None => defaultVal
  end.

Definition getEnvAsBool (key : string) (defaultVal : bool) : bool :=
  match LookupEnv key with
  | Some valStr =>
      match strconv.ParseBool valStr with
      | Some val => val
      | None => defaultVal
      end
  | None => defaultVal
  end.

Definition getEnvAsSlice (key defaultVal : string) : list string :=
  match LookupEnv key with
  | Some val => splitAndTrim val ","
  | None => splitAndTrim defaultVal ","
  end.

Record Config : Type := {
  Port : Z;
  Config_PDFPrinterPath : string;
  Config_DrawerCommandPath : string;
  TLSCertPath : string;
  TLSKeyPath : string;
  AllowedOrigins : list string;
  LogFile : string;
  LogMaxSize : Z;
  LogMaxBackups : Z;
  LogMaxAge : Z;
  LogCompress : bool;
  HTTPReadTimeout : Z;
  HTTPWriteTimeout : Z;
  HTTPIdleTimeout : Z
}.

Definition LoadConfig : Config :=
  {| Port := getEnvAsInt "PORT" 8080;
     Config_PDFPrinterPath := getEnv "PDF_PRINTER_PATH" "./PDFtoPrinter.exe";
     Config_DrawerCommandPath :=
       getEnv "DRAWER_COMMAND_PATH" "./drawer_open_command.txt";
     TLSCertPath := getEnv "TLS_CERT_PATH" EmptyString;
     TLSKeyPath := getEnv "TLS_KEY_PATH" EmptyString;
     AllowedOrigins := getEnvAsSlice "ALLOWED_ORIGINS" "*";
     LogFile := getEnv "LOG_FILE" "app.log";
     LogMaxSize := getEnvAsInt "LOG_MAX_SIZE_MB" 10;
     LogMaxBackups := getEnvAsInt "LOG_MAX_BACKUPS" 3;
     LogMaxAge := getEnvAsInt "LOG_MAX_AGE_DAYS" 28;
     LogCompress := getEnvAsBool "LOG_COMPRESS" true;
     HTTPReadTimeout := getEnvAsInt "HTTP_READ_TIMEOUT" 15;
     HTTPWriteTimeout := getEnvAsInt "HTTP_WRITE_TIMEOUT" 15;
     HTTPIdleTimeout := getEnvAsInt "HTTP_IDLE_TIMEOUT" 60 |}.

End Environment.

(** The service and the handlers [main] builds from a configuration. *)
Definition configuredHandlers (env : Env)
    (ParseRequestURI : string -> result URL) (cfg : Config) : Handlers :=
  mainHandlers env ParseRequestURI
    (Config_PDFPrinterPath cfg) (Config_DrawerCommandPath cfg).

(** The address [main] listens on: [fmt.Sprintf(":%d", cfg.Port)]. *)
Definition serverAddr (cfg : Config) : string := ":" +:+ pretty (Port cfg).

(** ** The [/open-box] handler *)

(** The body of an [/open-box] request, as [json.Decode] fills it. *)
Record OpenDrawerRequest : Type := { Drawer_Printer : string }.

Record DrawerHTTPRequest : Type := {
  Drawer_Method : string;
  Drawer_Body : result OpenDrawerRequest
}.

Definition OpenDrawerHandler (h : Handlers) (r : DrawerHTTPRequest) (w : World)
  : HTTPReply * World :=
  let w0 := Logger_Info "Received request: /open-box" w in
  if negb (String.eqb (Drawer_Method r) "POST") then
    (WriteErrorJSON 405 "Método HTTP no permitido" None,
     Logger_Warnf ("Método HTTP no permitido: " +:+ Drawer_Method r) w0)
  else
    match Drawer_Body r with
    | Err err =>
        (WriteErrorJSON 400 "Solicitud JSON inválida" (Some err),
         Logger_Warnf ("Error al decodificar JSON: " +:+ Error err) w0)
    | Ok req =>
        if String.eqb (Drawer_Printer req) EmptyString then
          (WriteErrorJSON 400 "No se especificó la impresora" None,
           Logger_Warn "No se especificó la impresora" w0)
        else
          match OpenDrawer (Service h) (Drawer_Printer req) w0 with
          | (Err err, w1) =>
              (WriteErrorJSON 500 "Error al abrir el cajón" (Some err),
               Logger_Errorf ("Error al abrir el cajón: " +:+ Error err) w1)
          | (Ok _, w1) =>
              (WriteJSON 200 {[ "message" := "Cajón abierto exitosamente." ]},
               w1)
          end
    end.

(** ** More vocabulary *)

(** The line the enumeration command prints for a printer. *)
Definition printerPairs (name driver port status location : string)
  : list (string * string) :=
  [ ("Name", name); ("DriverName", driver); ("PortName", port);
    ("PrinterStatus", status); ("Location", location) ].

(** A pair fit for a line whose value holds no ['='] either. *)
Definition plainPair (kv : string * string) : Prop :=
  cleanPair kv /\ strings.IndexByte (snd kv) "=" = None.

(** [suffix] ends [s]. *)
Definition endsWith (s suffix : string) : Prop :=
  exists front, s = front +:+ suffix.

(** A printer as the enumeration command reports it. *)
Record PrinterRow : Type := {
  Row_Name : string;
  Row_DriverName : string;
  Row_PortName : string;
  Row_PrinterStatus : string;
  Row_Location : string
}.

Definition rowPairs (r : PrinterRow) : list (string * string) :=
  printerPairs (Row_Name r) (Row_DriverName r) (Row_PortName r)
    (Row_PrinterStatus r) (Row_Location r).

(** The line of a printer in the enumeration output. *)
Definition rowLine (r : PrinterRow) : string := lineOf (rowPairs r).

(** A printer none of whose fields holds [';'] or ['=']. *)
Definition plainRow (r : PrinterRow) : Prop :=
  noSeparator (Row_Name r) /\ noSeparator (Row_DriverName r) /\
  noSeparator (Row_PortName r) /\ noSeparator (Row_PrinterStatus r) /\
  noSeparator (Row_Location r).


(** What [PrintPDFFromURL] returns once the print tool has run on [tmp]. *)
Definition printOutcome (env : Env) (pdfPrinterPath tmp printerName : string)
  : result unit :=
  match snd (exec_run env pdfPrinterPath [tmp; printerName]) with
  | None => Ok tt
  | Some err =>
      Err (Errorf_w "error al imprimir el archivo: "
             (errorString
                ("error al ejecutar PDFPrinter: " +:+ Error err
                 +:+ ", salida: " +:+ stderr_text env)))
  end.

(** The arguments of the drawer command. *)
Definition drawerArgs (drawerCommandPath printerName : string) : list string :=
  [ "-NoProfile"; "-ExecutionPolicy"; "Bypass"; "-File"; drawerCommandPath;
    "-Printer"; printerName ].

(** What [OpenDrawer] returns once the drawer command has run. *)
Definition drawerOutcome (env : Env) (drawerCommandPath printerName : string)
  : result unit :=
  match exec_run env "powershell" (drawerArgs drawerCommandPath printerName)
  with
  | (output, Some err) =>
      Err (Errorf_w "error al abrir el cajón: "
             (errorString
                ("error al ejecutar comando de apertura de cajón: "
                 +:+ Error err +:+ ", salida: " +:+ output)))
  | (_, None) => Ok tt
  end.

(** The error of an enumeration that exits with [err] having printed
    [out]. *)
Definition enumerationError (err : error) (out : string) : error :=
  wrapError ("error ejecutando PowerShell: " +:+ Error err
             +:+ ", salida: " +:+ out) err.

(** * Properties *)

(** ** Splitting *)

Section SplitFacts.

Implicit Types (s a b k v : string) (c sep : ascii).

Lemma app_String x s b : String x s +:+ b = String x (s +:+ b).
Proof. reflexivity. Qed.

Lemma app_empty b : EmptyString +:+ b = b.
Proof. reflexivity. Qed.

Lemma IndexByte_app_None a b c :
  strings.IndexByte a c = None ->
  strings.IndexByte b c = None ->
  strings.IndexByte (a +:+ b) c = None.
Proof.
  intros Ha Hb. induction a as [|x a IH]; [exact Hb|].
  rewrite app_String. cbn in *.
  destruct (Ascii.eqb x c); [discriminate|].
  destruct (strings.IndexByte a c); [discriminate|].
  now rewrite IH.
Qed.

Lemma IndexByte_String_None x a c :
  strings.IndexByte (String x a) c = None ->
  Ascii.eqb x c = false /\ strings.IndexByte a c = None.
Proof.
  cbn. destruct (Ascii.eqb x c); [discriminate|].
  destruct (strings.IndexByte a c); [discriminate|]. now split.
Qed.

Lemma Cut_first a b sep :
  strings.IndexByte a sep = None ->
  strings.Cut (a +:+ String sep b) sep = Some (a, b).
Proof.
  induction a as [|x a IH]; intros Ha.
  - rewrite app_empty. cbn. now rewrite Ascii.eqb_refl.
  - apply IndexByte_String_None in Ha as [Hx Ha].
    rewrite app_String. cbn. rewrite Hx, (IH Ha). reflexivity.
Qed.

Lemma Cut_None s sep :
  strings.IndexByte s sep = None -> strings.Cut s sep = None.
Proof.
  induction s as [|x s IH]; intros Hs; [reflexivity|].
  apply IndexByte_String_None in Hs as [Hx Hs].
  cbn. now rewrite Hx, (IH Hs).
Qed.

Lemma Cut_is_Some s sep i :
  strings.IndexByte s sep = Some i -> is_Some (strings.Cut s sep).
Proof.
  revert i. induction s as [|x s IH]; intros i; cbn; [discriminate|].
  destruct (Ascii.eqb x sep); [eauto|].
  destruct (strings.IndexByte s sep) as [j|]; [|discriminate].
  intros _. destruct (IH j eq_refl) as [[b0 a0] ->]. eauto.
Qed.

Lemma Split_not_nil s sep : strings.Split s sep <> [].
Proof.
  destruct s as [|x s]; cbn; [discriminate|].
  destruct (Ascii.eqb x sep); [discriminate|].
  destruct (strings.Split s sep); discriminate.
Qed.

Lemma Split_clean a sep :
  strings.IndexByte a sep = None -> strings.Split a sep = [a].
Proof.
  induction a as [|x a IH]; intros Ha; [reflexivity|].
  apply IndexByte_String_None in Ha as [Hx Ha].
  cbn. now rewrite Hx, (IH Ha).
Qed.

Lemma Split_first a b sep :
  strings.IndexByte a sep = None ->
  strings.Split (a +:+ String sep b) sep = a :: strings.Split b sep.
Proof.
  induction a as [|x a IH]; intros Ha.
  - rewrite app_empty. cbn. now rewrite Ascii.eqb_refl.
  - apply IndexByte_String_None in Ha as [Hx Ha].
    rewrite app_String. cbn. now rewrite Hx, (IH Ha).
Qed.

Lemma Split_Join (pieces : list string) sep :
  pieces <> [] ->
  Forall (fun p => strings.IndexByte p sep = None) pieces ->
  strings.Split (strings.Join pieces (String sep EmptyString)) sep = pieces.
Proof.
  intros Hne Hall. induction Hall as [|p rest Hp Hrest IH]; [done|].
  destruct rest as [|q rest'].
  - cbn. now apply Split_clean.
  - change (strings.Join (p :: q :: rest') (String sep EmptyString))
      with (p +:+ String sep EmptyString +:+ strings.Join (q :: rest') (String sep EmptyString)).
    rewrite app_String, app_empty, Split_first by exact Hp.
    f_equal. now apply IH.
Qed.

End SplitFacts.

(** ** [parsePrinterDetails] *)

Lemma SplitN_two_Some s before after :
  strings.Cut s "=" = Some (before, after) ->
  strings.SplitN s "=" 2 = [before; after].
Proof. intros H. cbn. now rewrite H. Qed.

Lemma SplitN_two_None s :
  strings.Cut s "=" = None -> strings.SplitN s "=" 2 = [s].
Proof. intros H. cbn. now rewrite H. Qed.

Lemma SplitN_property k v :
  strings.IndexByte k "=" = None ->
  strings.SplitN (propertyText (k, v)) "=" 2 = [k; v].
Proof.
  intros Hk. apply SplitN_two_Some.
  unfold propertyText; cbn [fst snd].
  change ("=" +:+ v) with (String "=" v). now apply Cut_first.
Qed.

Lemma parseProperties_pairs pairs m :
  Forall (fun kv => strings.IndexByte (fst kv) "=" = None) pairs ->
  parseProperties (map propertyText pairs) m = Ok (recordOf pairs m).
Proof.
  intros Hall. revert m.
  induction Hall as [|[k v] rest Hk _ IH]; intros m; [reflexivity|].
  cbn [map parseProperties]. rewrite (SplitN_property k v Hk). apply IH.
Qed.

Lemma parseProperties_malformed properties m :
  Exists (fun p => strings.IndexByte p "=" = None) properties ->
  exists bad,
    bad ∈ properties /\ strings.IndexByte bad "=" = None /\
    parseProperties properties m
    = Err (errorString ("formato de propiedad inválido: " +:+ bad)).
Proof.
  intros Hex. revert m.
  induction properties as [|p rest IH]; intros m; [inversion Hex|].
  cbn [parseProperties].
  destruct (strings.IndexByte p "=") as [i|] eqn:Hp.
  - destruct (Cut_is_Some _ _ _ Hp) as [[k v] Hcut].
    rewrite (SplitN_two_Some _ _ _ Hcut).
    apply Exists_cons in Hex as [Hbad|Hex]; [congruence|].
    destruct (IH Hex (<[k:=v]> m)) as (bad & Hin & Hbad & Heq).
    exists bad. split; [now right|]. now split.
  - rewrite (SplitN_two_None _ (Cut_None _ _ Hp)).
    exists p. split; [now left|]. now split.
Qed.

Lemma parseProperties_well_formed properties m :
  forallb wellFormedProperty properties = true ->
  exists r, parseProperties properties m = Ok r.
Proof.
  revert m. induction properties as [|p rest IH]; intros m; cbn [forallb].
  - now exists m.
  - intros [Hp Hrest]%andb_prop. cbn [parseProperties].
    unfold wellFormedProperty in Hp.
    destruct (strings.IndexByte p "=") as [i|] eqn:Hi; [|discriminate].
    destruct (Cut_is_Some _ _ _ Hi) as [[k v] Hcut].
    rewrite (SplitN_two_Some _ _ _ Hcut). now apply IH.
Qed.

Lemma forallb_false_Exists (properties : list string) :
  forallb wellFormedProperty properties = false ->
  Exists (fun p => strings.IndexByte p "=" = None) properties.
Proof.
  induction properties as [|p rest IH]; cbn [forallb]; [discriminate|].
  unfold wellFormedProperty at 1.
  destruct (strings.IndexByte p "=") eqn:Hp; cbn [andb].
  - intros H. right. now apply IH.
  - intros _. now left.
Qed.

(** A line parses exactly when it is well formed. *)
Lemma parsePrinterDetails_Ok line :
  wellFormedLine line = true -> exists r, parsePrinterDetails line = Ok r.
Proof. apply parseProperties_well_formed. Qed.

Lemma parsePrinterDetails_Err line :
  wellFormedLine line = false -> exists e, parsePrinterDetails line = Err e.
Proof.
  intros H%forallb_false_Exists.
  destruct (parseProperties_malformed _ ∅ H) as (bad & _ & _ & Heq).
  eauto.
Qed.

Lemma lineOf_Split pairs :
  pairs <> [] -> Forall cleanPair pairs ->
  strings.Split (lineOf pairs) ";" = map propertyText pairs.
Proof.
  intros Hne Hall. unfold lineOf. apply Split_Join.
  - destruct pairs; [done|discriminate].
  - apply Forall_map. eapply Forall_impl; [exact Hall|].
    intros [k v] (_ & Hk & Hv). unfold propertyText; cbn [fst snd] in *.
    apply IndexByte_app_None; [exact Hk|].
    change ("=" +:+ v) with (String "=" v). cbn. now rewrite Hv.
Qed.

Lemma parsePrinterDetails_lineOf pairs :
  pairs <> [] -> Forall cleanPair pairs ->
  parsePrinterDetails (lineOf pairs) = Ok (recordOf pairs ∅).
Proof.
  intros Hne Hall. unfold parsePrinterDetails.
  rewrite lineOf_Split by assumption.
  apply parseProperties_pairs.
  eapply Forall_impl; [exact Hall|]. now intros kv (Hk & _).
Qed.

Lemma recordOf_keep pairs m k v :
  k ∉ map fst pairs -> m !! k = Some v -> recordOf pairs m !! k = Some v.
Proof.
  revert m. induction pairs as [|[k' v'] rest IH]; intros m Hk Hm; [exact Hm|].
  cbn [map fst] in Hk. apply not_elem_of_cons in Hk as [Hne Hk].
  unfold recordOf. cbn [foldl fst snd]. apply IH; [exact Hk|].
  now rewrite lookup_insert_ne.
Qed.

Lemma recordOf_last pairs1 k v pairs2 m :
  k ∉ map fst pairs2 ->
  recordOf (pairs1 ++ (k, v) :: pairs2) m !! k = Some v.
Proof.
  intros Hk. unfold recordOf. rewrite foldl_app. cbn [foldl fst snd].
  apply recordOf_keep; [exact Hk|]. apply lookup_insert_eq.
Qed.

(** C8: a line is split on [';'] into property tokens and each token on its
    first ['='] only.  A token [k=v] whose key has no ['='] splits into
    exactly [k] and [v], whatever ['='] the value holds; a token without
    ['='] stays in one piece; a line of such tokens parses to the record of
    its pairs; and a line one of whose tokens has no ['='] is rejected as a
    whole, with the error naming a token without ['=']. *)
Theorem parsePrinterDetails_first_equals_wins :
  (forall k v : string,
      strings.IndexByte k "=" = None ->
      strings.SplitN (k +:+ "=" +:+ v) "=" 2 = [k; v]) /\
  (forall prop : string,
      strings.IndexByte prop "=" = None ->
      strings.SplitN prop "=" 2 = [prop]) /\
  (forall pairs : list (string * string),
      pairs <> [] -> Forall cleanPair pairs ->
      parsePrinterDetails (lineOf pairs) = Ok (recordOf pairs ∅)) /\
  (forall details prop : string,
      prop ∈ strings.Split details ";" ->
      strings.IndexByte prop "=" = None ->
      exists bad,
        bad ∈ strings.Split details ";" /\
        strings.IndexByte bad "=" = None /\
        parsePrinterDetails details
        = Err (errorString ("formato de propiedad inválido: " +:+ bad))).
Proof.
  split; [|split; [|split]].
  - intros k v Hk. exact (SplitN_property k v Hk).
  - intros prop Hp. apply SplitN_two_None. now apply Cut_None.
  - exact parsePrinterDetails_lineOf.
  - intros details prop Hin Hp. apply parseProperties_malformed.
    apply Exists_exists. now exists prop.
Qed.

(** C10: when a key occurs several times on a line, the record maps it to
    the value of its last occurrence, and the line still parses. *)
Theorem parsePrinterDetails_last_duplicate_wins
    (pairs1 pairs2 : list (string * string)) (k v : string) :
  Forall cleanPair (pairs1 ++ (k, v) :: pairs2) ->
  k ∉ map fst pairs2 ->
  wellFormedLine (lineOf (pairs1 ++ (k, v) :: pairs2)) = true /\
  exists m,
    parsePrinterDetails (lineOf (pairs1 ++ (k, v) :: pairs2)) = Ok m /\
    m !! k = Some v.
Proof.
  intros Hall Hk.
  assert (Hne : pairs1 ++ (k, v) :: pairs2 <> []) by (destruct pairs1; discriminate).
  pose proof (parsePrinterDetails_lineOf _ Hne Hall) as Hparse.
  split.
  - destruct (wellFormedLine _) eqn:Hwf; [reflexivity|].
    apply parsePrinterDetails_Err in Hwf as [e He]. congruence.
  - eexists. split; [exact Hparse|]. now apply recordOf_last.
Qed.

Lemma parsePrinterDetails_first_equals_wins_witness :
  strings.SplitN "Opts=a=b=c" "=" 2 = ["Opts"; "a=b=c"] /\
  strings.SplitN "Opts" "=" 2 = ["Opts"] /\
  parsePrinterDetails "Name=HP;Opts=a=b=c"
  = Ok (<["Opts" := "a=b=c"]> (<["Name" := "HP"]> ∅)) /\
  exists bad,
    bad ∈ strings.Split "Name=HP;Opts" ";" /\
    strings.IndexByte bad "=" = None /\
    parsePrinterDetails "Name=HP;Opts"
    = Err (errorString ("formato de propiedad inválido: " +:+ bad)).
Proof.
  destruct parsePrinterDetails_first_equals_wins as (H1 & H2 & H3 & H4).
  split; [exact (H1 "Opts" "a=b=c" eq_refl)|].
  split; [exact (H2 "Opts" eq_refl)|].
  split.
  - apply (H3 [("Name", "HP"); ("Opts", "a=b=c")]); [discriminate|].
    repeat constructor.
  - apply (H4 "Name=HP;Opts" "Opts"); [|reflexivity].
    vm_compute. right. left.
Defined.

Lemma parsePrinterDetails_last_duplicate_wins_witness :
  wellFormedLine "Name=HP;Location=A;Status=Idle;Location=B;Port=USB" = true /\
  exists m,
    parsePrinterDetails "Name=HP;Location=A;Status=Idle;Location=B;Port=USB"
    = Ok m /\
    m !! "Location" = Some "B".
Proof.
  apply (parsePrinterDetails_last_duplicate_wins
           [("Name", "HP"); ("Location", "A"); ("Status", "Idle")]
           [("Port", "USB")] "Location" "B").
  - repeat constructor.
  - cbn [map fst]. apply not_elem_of_cons.
    split; [discriminate|apply not_elem_of_nil].
Defined.

(** ** Trimming keeps a line well formed or malformed *)

Lemma string_app_assoc (a b c : string) : (a +:+ b) +:+ c = a +:+ b +:+ c.
Proof.
  induction a as [|x a IH]; [reflexivity|].
  rewrite !app_String. now rewrite IH.
Qed.

Lemma string_app_nil_r (a : string) : a +:+ EmptyString = a.
Proof.
  induction a as [|x a IH]; [reflexivity|]. rewrite app_String. now rewrite IH.
Qed.

Lemma rev_app_eq (s1 s2 : string) :
  String.rev_app s1 s2 = String.rev s1 +:+ s2.
Proof.
  revert s2. induction s1 as [|x s1 IH]; intros s2; [reflexivity|].
  unfold String.rev. cbn [String.rev_app].
  rewrite (IH (String x s2)), (IH (String x EmptyString)).
  now rewrite string_app_assoc.
Qed.

Lemma rev_String x (s : string) :
  String.rev (String x s) = String.rev s +:+ String x EmptyString.
Proof. unfold String.rev at 1. cbn [String.rev_app]. apply rev_app_eq. Qed.

Lemma rev_app_distr (a b : string) :
  String.rev (a +:+ b) = String.rev b +:+ String.rev a.
Proof.
  induction a as [|x a IH].
  - rewrite app_empty. now rewrite string_app_nil_r.
  - rewrite app_String, !rev_String, IH. apply string_app_assoc.
Qed.

Lemma rev_involutive (s : string) : String.rev (String.rev s) = s.
Proof.
  induction s as [|x s IH]; [reflexivity|].
  rewrite rev_String, rev_app_distr, IH. reflexivity.
Qed.

Lemma IndexByte_app_None_inv (a b : string) c :
  strings.IndexByte (a +:+ b) c = None ->
  strings.IndexByte a c = None /\ strings.IndexByte b c = None.
Proof.
  induction a as [|x a IH]; [now split|].
  rewrite app_String. intros [Hx H]%IndexByte_String_None.
  destruct (IH H) as [Ha Hb]. split; [|exact Hb]. cbn. now rewrite Hx, Ha.
Qed.

Lemma IndexByte_rev_None (p : string) c :
  strings.IndexByte p c = None -> strings.IndexByte (String.rev p) c = None.
Proof.
  induction p as [|x p IH]; [reflexivity|].
  intros [Hx Hp]%IndexByte_String_None. rewrite rev_String.
  apply IndexByte_app_None; [now apply IH|]. cbn. now rewrite Hx.
Qed.

Lemma noSeparator_app p q : noSeparator p -> noSeparator q -> noSeparator (p +:+ q).
Proof. intros [] []. split; now apply IndexByte_app_None. Qed.

Lemma noSeparator_rev p : noSeparator p -> noSeparator (String.rev p).
Proof. intros []. split; now apply IndexByte_rev_None. Qed.

Lemma CutPrefix_Some (s r s' : string) :
  strings.CutPrefix s r = Some s' -> s = r +:+ s'.
Proof.
  revert s. induction r as [|x r IH]; intros [|y s]; cbn;
    try discriminate; try (now intros [= <-]).
  destruct (Ascii.eqb_spec y x) as [->|]; [|discriminate].
  intros H. rewrite app_String. now rewrite <- (IH _ H).
Qed.

Lemma dropRune_Some runes (s s' : string) :
  strings.dropRune runes s = Some s' ->
  exists r, r ∈ runes /\ s = r +:+ s'.
Proof.
  induction runes as [|r runes IH]; cbn; [discriminate|].
  destruct (strings.CutPrefix s r) as [t|] eqn:Hcut.
  - intros [= <-]. exists r. split; [left|now apply CutPrefix_Some].
  - intros H. destruct (IH H) as (r' & Hin & Heq). exists r'. split; [now right|exact Heq].
Qed.

Lemma trimLeftRunes_split fuel runes (s : string) :
  Forall noSeparator runes ->
  exists p, noSeparator p /\ s = p +:+ strings.trimLeftRunes fuel runes s.
Proof.
  intros Hrunes. revert s. induction fuel as [|fuel IH]; intros s; cbn.
  - exists EmptyString. now split.
  - destruct (strings.dropRune runes s) as [s'|] eqn:Hdrop.
    + destruct (dropRune_Some _ _ _ Hdrop) as (r & Hin & ->).
      destruct (IH s') as (p & Hp & Heq).
      exists (r +:+ p). split.
      * apply noSeparator_app; [|exact Hp].
        rewrite Forall_forall in Hrunes. now apply Hrunes.
      * rewrite string_app_assoc. now rewrite <- Heq.
    + exists EmptyString. now split.
Qed.

Lemma length_string_app (a b : string) :
  String.length (a +:+ b) = String.length a + String.length b.
Proof.
  induction a as [|x a IH]; [reflexivity|].
  rewrite app_String. cbn [String.length]. now rewrite IH.
Qed.

(** The fuel of the trimming loops is enough: nothing is left to trim. *)
Lemma trimLeftRunes_done fuel runes (s : string) :
  Forall (fun r => r <> EmptyString) runes ->
  String.length s <= fuel ->
  strings.dropRune runes (strings.trimLeftRunes fuel runes s) = None.
Proof.
  intros Hrunes. revert s. induction fuel as [|fuel IH]; intros s Hlen; cbn.
  - destruct (strings.dropRune runes s) as [s'|] eqn:Hdrop; [|reflexivity].
    destruct (dropRune_Some _ _ _ Hdrop) as (r & Hin & ->).
    rewrite Forall_forall in Hrunes. specialize (Hrunes r Hin).
    rewrite length_string_app in Hlen. destruct r; [done|].
    cbn [String.length] in Hlen. lia.
  - destruct (strings.dropRune runes s) as [s'|] eqn:Hdrop; [|exact Hdrop].
    apply IH. destruct (dropRune_Some _ _ _ Hdrop) as (r & Hin & ->).
    rewrite Forall_forall in Hrunes. specialize (Hrunes r Hin).
    rewrite length_string_app in Hlen. destruct r; [done|].
    cbn [String.length] in Hlen. lia.
Qed.

Lemma TrimLeftSpace_done (s : string) :
  strings.dropRune strings.spaceRunes (strings.TrimLeftSpace s) = None.
Proof.
  apply trimLeftRunes_done; [|reflexivity].
  repeat constructor; discriminate.
Qed.

Lemma length_string_rev (s : string) :
  String.length (String.rev s) = String.length s.
Proof.
  induction s as [|x s IH]; [reflexivity|].
  rewrite rev_String, length_string_app, IH. cbn [String.length]. lia.
Qed.

Lemma TrimRightSpace_done (s : string) :
  strings.dropRune (map String.rev strings.spaceRunes)
    (String.rev (strings.TrimRightSpace s)) = None.
Proof.
  unfold strings.TrimRightSpace. rewrite rev_involutive.
  apply trimLeftRunes_done.
  - repeat constructor; discriminate.
  - now rewrite length_string_rev.
Qed.

Lemma spaceRunes_noSeparator : Forall noSeparator strings.spaceRunes.
Proof. repeat constructor. Qed.

Lemma TrimSpace_split (s : string) :
  exists p q, noSeparator p /\ noSeparator q /\
              s = p +:+ strings.TrimSpace s +:+ q.
Proof.
  unfold strings.TrimSpace, strings.TrimRightSpace, strings.TrimLeftSpace.
  destruct (trimLeftRunes_split (String.length s) strings.spaceRunes s
              spaceRunes_noSeparator) as (p & Hp & Hs).
  set (t := strings.trimLeftRunes (String.length s) strings.spaceRunes s) in *.
  destruct (trimLeftRunes_split (String.length t)
              (map String.rev strings.spaceRunes) (String.rev t))
    as (q & Hq & Ht).
  { apply Forall_map. eapply Forall_impl; [exact spaceRunes_noSeparator|].
    intros r. apply noSeparator_rev. }
  exists p, (String.rev q). split; [exact Hp|]. split; [now apply noSeparator_rev|].
  rewrite Hs at 1. f_equal.
  rewrite <- (rev_involutive t) at 1. rewrite Ht at 1.
  apply rev_app_distr.
Qed.

Lemma wellFormedProperty_String x (p : string) :
  wellFormedProperty (String x p) = Ascii.eqb x "=" || wellFormedProperty p.
Proof.
  unfold wellFormedProperty. cbn.
  destruct (Ascii.eqb x "="); [reflexivity|].
  now destruct (strings.IndexByte p "=").
Qed.

Lemma wellFormed_prefix (p t : string) :
  noSeparator p ->
  map wellFormedProperty (strings.Split (p +:+ t) ";")
  = map wellFormedProperty (strings.Split t ";").
Proof.
  intros [Hsemi Heq]. induction p as [|x p IH]; [reflexivity|].
  apply IndexByte_String_None in Hsemi as [Hx1 Hsemi].
  apply IndexByte_String_None in Heq as [Hx2 Heq].
  rewrite app_String. cbn [strings.Split]. rewrite Hx1.
  rewrite <- (IH Hsemi Heq).
  destruct (strings.Split (p +:+ t) ";") as [|a rest] eqn:Hsplit.
  - now apply Split_not_nil in Hsplit.
  - cbn [map]. now rewrite wellFormedProperty_String, Hx2.
Qed.

Lemma wellFormed_suffix (t q : string) :
  noSeparator q ->
  map wellFormedProperty (strings.Split (t +:+ q) ";")
  = map wellFormedProperty (strings.Split t ";").
Proof.
  intros [Hsemi Heq]. induction t as [|x t IH].
  - rewrite app_empty, (Split_clean _ _ Hsemi). cbn.
    unfold wellFormedProperty. now rewrite Heq.
  - rewrite app_String. cbn [strings.Split].
    destruct (Ascii.eqb x ";"); [cbn [map]; now rewrite IH|].
    destruct (strings.Split (t +:+ q) ";") as [|a rest] eqn:H1;
      [now apply Split_not_nil in H1|].
    destruct (strings.Split t ";") as [|a' rest'] eqn:H2;
      [now apply Split_not_nil in H2|].
    cbn [map] in *. injection IH as Ha Hrest.
    now rewrite !wellFormedProperty_String, Ha, Hrest.
Qed.

Lemma wellFormedLine_map (s : string) :
  wellFormedLine s = forallb id (map wellFormedProperty (strings.Split s ";")).
Proof.
  unfold wellFormedLine.
  induction (strings.Split s ";") as [|p rest IH]; [reflexivity|].
  cbn [map forallb id]. now rewrite IH.
Qed.

Lemma wellFormedLine_TrimSpace (s : string) :
  wellFormedLine (strings.TrimSpace s) = wellFormedLine s.
Proof.
  destruct (TrimSpace_split s) as (p & q & Hp & Hq & Hs).
  rewrite !wellFormedLine_map. rewrite Hs at 2.
  now rewrite (wellFormed_prefix _ _ Hp), (wellFormed_suffix _ _ Hq).
Qed.

(** ** Enumeration *)

Lemma trimmedLines_filter lines printers :
  trimmedLines lines printers
  = printers
    ++ filter (fun l => l <> EmptyString) (map strings.TrimSpace lines).
Proof.
  revert printers. induction lines as [|line rest IH]; intros printers.
  - cbn. now rewrite app_nil_r.
  - cbn [trimmedLines map]. rewrite filter_cons.
    destruct (String.eqb_spec (strings.TrimSpace line) EmptyString) as [Heq|Hne].
    + rewrite decide_False by (intros H; now apply H). apply IH.
    + rewrite decide_True by exact Hne. rewrite IH.
      now rewrite <- app_assoc.
Qed.

Lemma ListPrinters_run env out (w : World) :
  exec_run env "powershell" listPrintersArgs = (out, None) ->
  WindowsPrinterManager_ListPrinters env w
  = (Ok (printerLines out), emit (EvExec "powershell" listPrintersArgs) w).
Proof.
  intros Hrun. unfold WindowsPrinterManager_ListPrinters, os_exec.
  rewrite Hrun. now rewrite trimmedLines_filter.
Qed.

Lemma PrinterExists_run env out name (w : World) :
  exec_run env "powershell" listPrintersArgs = (out, None) ->
  WindowsPrinterManager_PrinterExists env name w
  = (Ok (anyListed (printerLines out) name),
     emit (EvExec "powershell" listPrintersArgs) w).
Proof.
  intros Hrun. unfold WindowsPrinterManager_PrinterExists, bind, wrapping.
  now rewrite (ListPrinters_run env out w Hrun).
Qed.

(** What the loop of [PrinterExists] computes: some line holds the text
    [Name=<name>;] somewhere. *)
Lemma anyListed_true printers name :
  anyListed printers name = true <->
  exists p, p ∈ printers /\
            strings.Contains p ("Name=" +:+ name +:+ ";") = true.
Proof.
  induction printers as [|p rest IH]; cbn [anyListed].
  - split; [discriminate|]. intros (p & Hin & _). now apply elem_of_nil in Hin.
  - destruct (strings.Contains p _) eqn:Hp.
    + split; [|reflexivity]. intros _. exists p. split; [left|exact Hp].
    + rewrite IH. split.
      * intros (q & Hin & Hq). exists q. split; [now right|exact Hq].
      * intros (q & Hin & Hq). apply elem_of_cons in Hin as [->|Hin].
        -- congruence.
        -- now exists q.
Qed.

Lemma omap_parseWarning_cons line rest :
  omap parseWarning (line :: rest)
  = match parseWarning line with
    | Some e => e :: omap parseWarning rest
    | None => omap parseWarning rest
    end.
Proof. reflexivity. Qed.

Lemma collectPrinters_spec lines printers (w : World) :
  exists found,
    collectPrinters lines printers w
    = (printers ++ found,
       {| trace := trace w ++ omap parseWarning lines; files := files w |}) /\
    Forall2 (fun line r => parsePrinterDetails line = Ok r)
      (List.filter wellFormedLine lines) found /\
    length (omap parseWarning lines)
    = length (List.filter (fun l => negb (wellFormedLine l)) lines).
Proof.
  revert printers w. induction lines as [|line rest IH]; intros printers w.
  - exists []. cbn. rewrite !app_nil_r. destruct w; repeat split; constructor.
  - cbn [collectPrinters List.filter]. rewrite omap_parseWarning_cons.
    destruct (wellFormedLine line) eqn:Hwf; cbn [negb].
    + destruct (parsePrinterDetails_Ok line Hwf) as [r Hr].
      assert (Hw : parseWarning line = None)
        by (unfold parseWarning; now rewrite Hr).
      rewrite Hr, !Hw.
      destruct (IH (printers ++ [r]) w) as (found & Heq & Hall & Hlen).
      exists (r :: found). rewrite Heq, <- app_assoc.
      split; [reflexivity|]. split; [now constructor|exact Hlen].
    + destruct (parsePrinterDetails_Err line Hwf) as [e He].
      assert (Hw : parseWarning line
                   = Some (EvLog ("[ERROR] Error al parsear detalles de impresora: "
                                  +:+ Error e)))
        by (unfold parseWarning; now rewrite He).
      rewrite He, !Hw.
      destruct (IH printers
                  (Logger_Errorf
                     ("Error al parsear detalles de impresora: " +:+ Error e)
                     w))
        as (found & Heq & Hall & Hlen).
      exists found. rewrite Heq.
      unfold Logger_Errorf, Logger_Error, emit; cbn [trace files].
      rewrite <- app_assoc. split; [reflexivity|].
      split; [exact Hall|]. cbn [length]. now rewrite Hlen.
Qed.

(** The run of [GetPrinters] on the lines [ListPrinters] keeps. *)
Lemma GetPrinters_run
    (env : Env) (pdfPrinterPath drawerCommandPath out : string) (w : World) :
  exec_run env "powershell" listPrintersArgs = (out, None) ->
  exists printers,
    DefaultPrinterService_GetPrinters
      (mainService env pdfPrinterPath drawerCommandPath) w
    = (Ok printers,
       {| trace := trace w ++ EvExec "powershell" listPrintersArgs
                              :: omap parseWarning (printerLines out);
          files := files w |}) /\
    Forall2 (fun line r => parsePrinterDetails line = Ok r)
      (List.filter wellFormedLine (printerLines out)) printers /\
    length (omap parseWarning (printerLines out))
    = length (List.filter (fun l => negb (wellFormedLine l)) (printerLines out)).
Proof.
  intros Hrun.
  destruct (collectPrinters_spec (printerLines out) []
              (emit (EvExec "powershell" listPrintersArgs) w))
    as (found & Heq & Hall & Hlen).
  exists found. split; [|now split].
  unfold DefaultPrinterService_GetPrinters, bind, wrapping.
  cbn [mainService Service_PrinterManager ListPrinters WindowsPrinterManager].
  rewrite (ListPrinters_run env out w Hrun), Heq.
  cbn [app emit trace files]. now rewrite <- app_assoc.
Qed.

Lemma printerLines_good (lines : list string) :
  List.filter wellFormedLine
    (filter (fun l => l <> EmptyString) (map strings.TrimSpace lines))
  = map strings.TrimSpace (List.filter goodLine lines).
Proof.
  induction lines as [|line rest IH]; [reflexivity|].
  cbn [map List.filter]. rewrite filter_cons. unfold goodLine at 1, blankLine.
  destruct (String.eqb_spec (strings.TrimSpace line) EmptyString) as [Hblank|Hfull].
  - rewrite decide_False by (intros H; now apply H). exact IH.
  - rewrite decide_True by exact Hfull. cbn [List.filter negb andb].
    rewrite wellFormedLine_TrimSpace.
    destruct (wellFormedLine line); [cbn [map]; now rewrite IH|exact IH].
Qed.

Lemma printerLines_bad (lines : list string) :
  List.filter (fun l => negb (wellFormedLine l))
    (filter (fun l => l <> EmptyString) (map strings.TrimSpace lines))
  = map strings.TrimSpace (List.filter badLine lines).
Proof.
  induction lines as [|line rest IH]; [reflexivity|].
  cbn [map List.filter]. rewrite filter_cons. unfold badLine at 1, blankLine.
  destruct (String.eqb_spec (strings.TrimSpace line) EmptyString) as [Hblank|Hfull].
  - rewrite decide_False by (intros H; now apply H). exact IH.
  - rewrite decide_True by exact Hfull. cbn [List.filter negb andb].
    rewrite wellFormedLine_TrimSpace.
    destruct (wellFormedLine line); [exact IH|cbn [map negb]; now rewrite IH].
Qed.

Lemma parseWarnings_are_logs (lines : list string) :
  Forall
    (fun e => exists msg,
         e = EvLog ("[ERROR] Error al parsear detalles de impresora: " +:+ msg))
    (omap parseWarning lines).
Proof.
  induction lines as [|line rest IH]; [constructor|].
  rewrite omap_parseWarning_cons. unfold parseWarning at 1.
  destruct (parsePrinterDetails line) as [r|e]; [exact IH|].
  constructor; [now exists (Error e)|exact IH].
Qed.

(** C6: when the enumeration prints [out], [GetPrinters] succeeds.  Among
    the lines of [out] that are not blank, it returns one record per
    well-formed line, in the order of the lines (N records for N such
    lines), each the parse of the trimmed line; and, the enumeration apart,
    all it does is log one parse error per malformed line (M log entries for
    M such lines). *)
Theorem GetPrinters_skips_malformed_lines
    (env : Env) (pdfPrinterPath drawerCommandPath out : string) (w : World) :
  exec_run env "powershell" listPrintersArgs = (out, None) ->
  exists printers warnings,
    DefaultPrinterService_GetPrinters
      (mainService env pdfPrinterPath drawerCommandPath) w
    = (Ok printers,
       {| trace := trace w ++ EvExec "powershell" listPrintersArgs :: warnings;
          files := files w |}) /\
    length printers
    = length (List.filter goodLine (strings.Split out "010")) /\
    Forall2 (fun line r => parsePrinterDetails (strings.TrimSpace line) = Ok r)
      (List.filter goodLine (strings.Split out "010")) printers /\
    length warnings
    = length (List.filter badLine (strings.Split out "010")) /\
    Forall
      (fun e => exists msg,
           e = EvLog ("[ERROR] Error al parsear detalles de impresora: "
                      +:+ msg))
      warnings.
Proof.
  intros Hrun.
  destruct (GetPrinters_run env pdfPrinterPath drawerCommandPath out w Hrun)
    as (printers & Heq & Hall & Hlen).
  unfold printerLines in Hall, Hlen.
  rewrite printerLines_good in Hall. rewrite printerLines_bad in Hlen.
  rewrite length_map in Hlen. apply Forall2_fmap_l in Hall.
  exists printers, (omap parseWarning (printerLines out)).
  split; [exact Heq|]. split; [|split; [exact Hall|split; [exact Hlen|]]].
  - symmetry. exact (Forall2_length _ _ _ Hall).
  - apply parseWarnings_are_logs.
Qed.

Lemma GetPrinters_skips_malformed_lines_witness :
  exists printers warnings,
    DefaultPrinterService_GetPrinters
      (mainService (sampleEnv sampleListing (Ok okResponse) "/tmp/1.pdf" None None)
         "./PDFtoPrinter.exe" "./drawer_open_command.txt") emptyWorld
    = (Ok printers,
       {| trace := EvExec "powershell" listPrintersArgs :: warnings;
          files := ∅ |}) /\
    length printers = 2 /\
    length warnings = 1.
Proof.
  destruct (GetPrinters_skips_malformed_lines
              (sampleEnv sampleListing (Ok okResponse) "/tmp/1.pdf" None None)
              "./PDFtoPrinter.exe" "./drawer_open_command.txt"
              sampleListing emptyWorld eq_refl)
    as (printers & warnings & Hrun & Hn & _ & Hm & _).
  exists printers, warnings.
  split; [exact Hrun|]. split; [exact Hn|exact Hm].
Defined.

(** ** The existence check comes first *)

Section Orchestration.

Variable env : Env.
Variable ParseRequestURI : string -> result URL.

Local Abbreviation printFromURL :=
  (DefaultPrinterService_PrintPDFFromURL env ParseRequestURI).

Lemma PrintPDFFromURL_absent d fileURL printerName (w w' : World) :
  PrinterExists (Service_PrinterManager d) printerName w = (Ok false, w') ->
  printFromURL d fileURL printerName w
  = (Err (errorString ("la impresora '" +:+ printerName +:+ "' no existe")),
     w').
Proof.
  intros Hcheck.
  unfold DefaultPrinterService_PrintPDFFromURL, bind, wrapping.
  now rewrite Hcheck.
Qed.

Lemma PrintPDFFromURL_present d fileURL printerName (w w' : World) :
  PrinterExists (Service_PrinterManager d) printerName w = (Ok true, w') ->
  printFromURL d fileURL printerName w
  = match ParseRequestURI fileURL with
    | Err err => (Err (Errorf_w "URL inválida: " err), w')
    | Ok parsedURL =>
        if negb (String.eqb (Scheme parsedURL) "http")
           && negb (String.eqb (Scheme parsedURL) "https")
        then
          (Err (errorString
                  ("esquema de URL no soportado: " +:+ Scheme parsedURL)),
           w')
        else
          match wrapping "error al descargar el archivo: "
                  (downloadFile env fileURL) w' with
          | (Err e, w1) => (Err e, w1)
          | (Ok filePath, w1) =>
              deferring (removeTemp env filePath)
                (bind
                   (act (Logger_Infof ("Archivo descargado: " +:+ filePath)))
                   (fun _ =>
                      wrapping "error al imprimir el archivo: "
                        (PrintFile (Service_DocumentPrinter d) filePath
                           printerName)))
                w1
          end
    end.
Proof.
  intros Hcheck.
  unfold DefaultPrinterService_PrintPDFFromURL.
  unfold bind at 1. unfold wrapping at 1. rewrite Hcheck. cbn [negb].
  destruct (ParseRequestURI fileURL) as [u|err]; [|reflexivity].
  destruct (negb (String.eqb (Scheme u) "http")
            && negb (String.eqb (Scheme u) "https")); reflexivity.
Qed.

Lemma scheme_rejected (u : URL) :
  Scheme u <> "http" -> Scheme u <> "https" ->
  negb (String.eqb (Scheme u) "http") && negb (String.eqb (Scheme u) "https")
  = true.
Proof.
  intros H1 H2.
  destruct (String.eqb_spec (Scheme u) "http"); [done|].
  destruct (String.eqb_spec (Scheme u) "https"); [done|]. reflexivity.
Qed.

Lemma PrintPDFFromURL_bad_url d fileURL printerName (w w' : World) :
  PrinterExists (Service_PrinterManager d) printerName w = (Ok true, w') ->
  (forall u, ParseRequestURI fileURL = Ok u ->
             Scheme u <> "http" /\ Scheme u <> "https") ->
  exists e,
    printFromURL d fileURL printerName w = (Err e, w') /\
    ((exists err, ParseRequestURI fileURL = Err err /\
                  e = Errorf_w "URL inválida: " err) \/
     (exists u, ParseRequestURI fileURL = Ok u /\
                e = errorString
                      ("esquema de URL no soportado: " +:+ Scheme u))).
Proof.
  intros Hcheck Hbad. rewrite (PrintPDFFromURL_present _ _ _ _ _ Hcheck).
  destruct (ParseRequestURI fileURL) as [u|err].
  - destruct (Hbad u eq_refl) as [H1 H2]. rewrite (scheme_rejected u H1 H2).
    eexists. split; [reflexivity|]. right. now exists u.
  - eexists. split; [reflexivity|]. left. now exists err.
Qed.

Lemma OpenDrawer_absent d printerName (w w' : World) :
  PrinterExists (Service_PrinterManager d) printerName w = (Ok false, w') ->
  DefaultPrinterService_OpenDrawer d printerName w
  = (Err (errorString ("la impresora '" +:+ printerName +:+ "' no existe")),
     w').
Proof.
  intros Hcheck. unfold DefaultPrinterService_OpenDrawer, bind, wrapping.
  now rewrite Hcheck.
Qed.

End Orchestration.

(** When the existence check answers that the printer is not there,
    [PrintPDFFromURL] fails with the unknown-printer error and the world is
    left as the check left it: nothing is fetched and nothing is printed.
    With the service of [main] and an enumeration that lists no line for the
    printer, the enumeration is the only event of the call. *)
Theorem PrintPDFFromURL_unknown_printer_before_fetch
    (env : Env) (ParseRequestURI : string -> result URL)
    (fileURL printerName : string) (w : World) :
  (forall d w',
      PrinterExists (Service_PrinterManager d) printerName w = (Ok false, w') ->
      DefaultPrinterService_PrintPDFFromURL env ParseRequestURI d
        fileURL printerName w
      = (Err (errorString ("la impresora '" +:+ printerName +:+ "' no existe")),
         w')) /\
  (forall pdfPrinterPath drawerCommandPath out,
      exec_run env "powershell" listPrintersArgs = (out, None) ->
      anyListed (printerLines out) printerName = false ->
      DefaultPrinterService_PrintPDFFromURL env ParseRequestURI
        (mainService env pdfPrinterPath drawerCommandPath)
        fileURL printerName w
      = (Err (errorString ("la impresora '" +:+ printerName +:+ "' no existe")),
         emit (EvExec "powershell" listPrintersArgs) w)).
Proof.
  split.
  - intros d w'. apply PrintPDFFromURL_absent.
  - intros pdfPrinterPath drawerCommandPath out Hrun Habsent.
    apply PrintPDFFromURL_absent.
    cbn [mainService Service_PrinterManager PrinterExists WindowsPrinterManager].
    now rewrite (PrinterExists_run env out printerName w Hrun), Habsent.
Qed.

(** When the existence check answers that the printer is not there,
    [OpenDrawer] fails with the unknown-printer error and the world is left
    as the check left it: the drawer command is not run.  With the service
    of [main], the enumeration is the only event of the call. *)
Theorem OpenDrawer_unknown_printer_before_drawer
    (env : Env) (printerName : string) (w : World) :
  (forall d w',
      PrinterExists (Service_PrinterManager d) printerName w = (Ok false, w') ->
      DefaultPrinterService_OpenDrawer d printerName w
      = (Err (errorString ("la impresora '" +:+ printerName +:+ "' no existe")),
         w')) /\
  (forall pdfPrinterPath drawerCommandPath out,
      exec_run env "powershell" listPrintersArgs = (out, None) ->
      anyListed (printerLines out) printerName = false ->
      DefaultPrinterService_OpenDrawer
        (mainService env pdfPrinterPath drawerCommandPath) printerName w
      = (Err (errorString ("la impresora '" +:+ printerName +:+ "' no existe")),
         emit (EvExec "powershell" listPrintersArgs) w)).
Proof.
  split.
  - intros d w'. apply OpenDrawer_absent.
  - intros pdfPrinterPath drawerCommandPath out Hrun Habsent.
    apply OpenDrawer_absent.
    cbn [mainService Service_PrinterManager PrinterExists WindowsPrinterManager].
    now rewrite (PrinterExists_run env out printerName w Hrun), Habsent.
Qed.

(** C5: with a printer the existence check accepts, a URL that does not
    parse as a request URI, or whose scheme is neither http nor https, makes
    [PrintPDFFromURL] fail with the invalid-URL or the unsupported-scheme
    error, and the world is left as the check left it: [downloadFile] is not
    called.  With the service of [main], the enumeration is the only event
    of the call, so no GET is sent. *)
Theorem PrintPDFFromURL_bad_url_before_fetch
    (env : Env) (ParseRequestURI : string -> result URL)
    (fileURL printerName : string) (w : World) :
  (forall u, ParseRequestURI fileURL = Ok u ->
             Scheme u <> "http" /\ Scheme u <> "https") ->
  (forall d w',
      PrinterExists (Service_PrinterManager d) printerName w = (Ok true, w') ->
      exists e,
        DefaultPrinterService_PrintPDFFromURL env ParseRequestURI d
          fileURL printerName w = (Err e, w') /\
        ((exists err, ParseRequestURI fileURL = Err err /\
                      e = Errorf_w "URL inválida: " err) \/
         (exists u, ParseRequestURI fileURL = Ok u /\
                    e = errorString
                          ("esquema de URL no soportado: " +:+ Scheme u)))) /\
  (forall pdfPrinterPath drawerCommandPath out,
      exec_run env "powershell" listPrintersArgs = (out, None) ->
      anyListed (printerLines out) printerName = true ->
      exists e,
        DefaultPrinterService_PrintPDFFromURL env ParseRequestURI
          (mainService env pdfPrinterPath drawerCommandPath)
          fileURL printerName w
        = (Err e, emit (EvExec "powershell" listPrintersArgs) w) /\
        List.filter isHTTPGet (trace (emit (EvExec "powershell" listPrintersArgs) w))
        = List.filter isHTTPGet (trace w)).
Proof.
  intros Hbad. split.
  - intros d w' Hcheck. now apply PrintPDFFromURL_bad_url.
  - intros pdfPrinterPath drawerCommandPath out Hrun Hlisted.
    destruct (PrintPDFFromURL_bad_url env ParseRequestURI
                (mainService env pdfPrinterPath drawerCommandPath)
                fileURL printerName w
                (emit (EvExec "powershell" listPrintersArgs) w))
      as (e & Heq & _); [|exact Hbad|].
    + cbn [mainService Service_PrinterManager PrinterExists WindowsPrinterManager].
      now rewrite (PrinterExists_run env out printerName w Hrun), Hlisted.
    + exists e. split; [exact Heq|].
      unfold emit; cbn [trace]. rewrite List.filter_app. cbn. apply app_nil_r.
Qed.

Lemma PrintPDFFromURL_unknown_printer_before_fetch_witness :
  DefaultPrinterService_PrintPDFFromURL
    (sampleEnv sampleOutput (Ok okResponse) "/tmp/1.pdf" None None)
    sampleParseRequestURI
    (mainService (sampleEnv sampleOutput (Ok okResponse) "/tmp/1.pdf" None None)
       "./PDFtoPrinter.exe" "./drawer_open_command.txt")
    "http://x/doc.pdf" "Ghost" emptyWorld
  = (Err (errorString "la impresora 'Ghost' no existe"),
     {| trace := [EvExec "powershell" listPrintersArgs]; files := ∅ |}).
Proof.
  destruct (PrintPDFFromURL_unknown_printer_before_fetch
              (sampleEnv sampleOutput (Ok okResponse) "/tmp/1.pdf" None None)
              sampleParseRequestURI "http://x/doc.pdf" "Ghost" emptyWorld)
    as [Hany Hmain].
  exact (Hmain "./PDFtoPrinter.exe" "./drawer_open_command.txt" sampleOutput
           eq_refl eq_refl).
Defined.

Lemma OpenDrawer_unknown_printer_before_drawer_witness :
  DefaultPrinterService_OpenDrawer
    (mainService (sampleEnv sampleOutput (Ok okResponse) "/tmp/1.pdf" None None)
       "./PDFtoPrinter.exe" "./drawer_open_command.txt")
    "Ghost" emptyWorld
  = (Err (errorString "la impresora 'Ghost' no existe"),
     {| trace := [EvExec "powershell" listPrintersArgs]; files := ∅ |}).
Proof.
  destruct (OpenDrawer_unknown_printer_before_drawer
              (sampleEnv sampleOutput (Ok okResponse) "/tmp/1.pdf" None None)
              "Ghost" emptyWorld)
    as [Hany Hmain].
  exact (Hmain "./PDFtoPrinter.exe" "./drawer_open_command.txt" sampleOutput
           eq_refl eq_refl).
Defined.

Lemma PrintPDFFromURL_bad_url_before_fetch_witness :
  exists e,
    DefaultPrinterService_PrintPDFFromURL
      (sampleEnv sampleOutput (Ok okResponse) "/tmp/1.pdf" None None)
      sampleParseRequestURI
      (mainService (sampleEnv sampleOutput (Ok okResponse) "/tmp/1.pdf" None None)
         "./PDFtoPrinter.exe" "./drawer_open_command.txt")
      "file:///etc/passwd" "HP" emptyWorld
    = (Err e, {| trace := [EvExec "powershell" listPrintersArgs]; files := ∅ |}).
Proof.
  destruct (PrintPDFFromURL_bad_url_before_fetch
              (sampleEnv sampleOutput (Ok okResponse) "/tmp/1.pdf" None None)
              sampleParseRequestURI "file:///etc/passwd" "HP" emptyWorld)
    as [Hany Hmain].
  - intros u Hu. vm_compute in Hu. injection Hu as <-. split; discriminate.
  - destruct (Hmain "./PDFtoPrinter.exe" "./drawer_open_command.txt"
                sampleOutput eq_refl eq_refl) as (e & Heq & _).
    exists e. exact Heq.
Defined.

(** ** Cleanup of the temporary file *)

Lemma removeTemp_ok env filePath (w : World) :
  remove_err env filePath = None ->
  removeTemp env filePath w
  = {| trace := trace w ++ [EvRemove filePath];
       files := files w ∖ {[filePath]} |}.
Proof. intros H. unfold removeTemp, os_Remove. now rewrite H. Qed.

Lemma removeTemp_fails env filePath e (w : World) :
  remove_err env filePath = Some e ->
  removeTemp env filePath w
  = emit (EvLog ("[ERROR] Error al eliminar archivo temporal: " +:+ Error e))
      (emit (EvRemove filePath) w).
Proof. intros H. unfold removeTemp, os_Remove. now rewrite H. Qed.

(** The run of [PrintPDFFromURL] once the file is downloaded: the print
    tool decides the returned value, then the deferred removal runs. *)
Lemma PrintPDFFromURL_downloaded env ParseRequestURI d fileURL printerName
    u filePath (w w1 w2 : World) :
  PrinterExists (Service_PrinterManager d) printerName w = (Ok true, w1) ->
  ParseRequestURI fileURL = Ok u ->
  Scheme u = "http" \/ Scheme u = "https" ->
  downloadFile env fileURL w1 = (Ok filePath, w2) ->
  DefaultPrinterService_PrintPDFFromURL env ParseRequestURI d
    fileURL printerName w
  = (fst (wrapping "error al imprimir el archivo: "
            (PrintFile (Service_DocumentPrinter d) filePath printerName)
            (Logger_Infof ("Archivo descargado: " +:+ filePath) w2)),
     removeTemp env filePath
       (snd (wrapping "error al imprimir el archivo: "
               (PrintFile (Service_DocumentPrinter d) filePath printerName)
               (Logger_Infof ("Archivo descargado: " +:+ filePath) w2)))).
Proof.
  intros Hcheck Hparse Hscheme Hload.
  rewrite (PrintPDFFromURL_present _ _ _ _ _ _ _ Hcheck), Hparse.
  assert (Hs : negb (String.eqb (Scheme u) "http")
               && negb (String.eqb (Scheme u) "https") = false)
    by (destruct Hscheme as [-> | ->]; reflexivity).
  rewrite Hs. unfold wrapping at 1. rewrite Hload.
  unfold deferring, bind, act.
  now destruct (wrapping _ _ _) as [r w3].
Qed.

(** Once the file is downloaded and [os.Remove] works, the file is gone
    when the call returns, whether printing worked or not. *)
Lemma PrintPDFFromURL_removes_after_dispatch env ParseRequestURI d
    fileURL printerName u filePath (w w1 w2 : World) :
  PrinterExists (Service_PrinterManager d) printerName w = (Ok true, w1) ->
  ParseRequestURI fileURL = Ok u ->
  Scheme u = "http" \/ Scheme u = "https" ->
  downloadFile env fileURL w1 = (Ok filePath, w2) ->
  remove_err env filePath = None ->
  filePath ∉ files (snd (DefaultPrinterService_PrintPDFFromURL env
                           ParseRequestURI d fileURL printerName w)).
Proof.
  intros Hcheck Hparse Hscheme Hload Hrm.
  rewrite (PrintPDFFromURL_downloaded _ _ _ _ _ _ _ _ _ _
             Hcheck Hparse Hscheme Hload).
  cbn [snd]. rewrite (removeTemp_ok _ _ _ Hrm). cbn [files].
  intros [_ Hout]%elem_of_difference. apply Hout. now apply elem_of_singleton.
Qed.

(** A body that breaks off while it is copied: [downloadFile] returns the
    error and the file it created stays behind. *)
Lemma downloadFile_copy_error env fileURL resp tmp e (w : World) :
  http_get env fileURL = Ok resp ->
  StatusCode resp = 200%Z ->
  create_temp env = Ok tmp ->
  BodyCopy resp = Some e ->
  downloadFile env fileURL w
  = (Err e,
     {| trace := trace w ++ [EvHTTPGet fileURL; EvCreateTemp tmp; EvCopy tmp];
        files := {[tmp]} ∪ files w |}).
Proof.
  intros Hget Hstatus Htmp Hcopy.
  unfold downloadFile, bind, http_Get, os_CreateTemp, io_Copy, emit.
  rewrite Hget, Hstatus, Htmp, Hcopy. cbn [trace files negb Z.eqb Pos.eqb].
  now rewrite <- !app_assoc.
Qed.

(** C2: the run where the body of the reply breaks off while it is copied
    into the temporary file.  [PrintPDFFromURL] returns the download error,
    the trace holds no removal, and the temporary file is still on disk. *)
Theorem PrintPDFFromURL_copy_error_leaves_temp_file :
  DefaultPrinterService_PrintPDFFromURL
    (sampleEnv sampleOutput (Ok brokenResponse) "/tmp/123.pdf" None None)
    sampleParseRequestURI
    (mainService
       (sampleEnv sampleOutput (Ok brokenResponse) "/tmp/123.pdf" None None)
       "./PDFtoPrinter.exe" "./drawer_open_command.txt")
    "http://x/doc.pdf" "HP" emptyWorld
  = (Err (Errorf_w "error al descargar el archivo: "
            (errorString "unexpected EOF")),
     {| trace := [ EvExec "powershell" listPrintersArgs;
                   EvHTTPGet "http://x/doc.pdf";
                   EvCreateTemp "/tmp/123.pdf";
                   EvCopy "/tmp/123.pdf" ];
        files := {["/tmp/123.pdf"]} |}).
Proof. vm_compute. reflexivity. Qed.

(** C9: the value [PrintPDFFromURL] returns does not depend on how
    [os.Remove] answers: two outsides that differ only there give the same
    returned value.  Once the file is downloaded, the returned value is that
    of the print tool, wrapped, and a removal that fails with [e] ends the
    call with the log line of that error. *)
Theorem PrintPDFFromURL_cleanup_failure_not_propagated
    (env : Env) (ParseRequestURI : string -> result URL)
    (d : DefaultPrinterService) (fileURL printerName : string) (w : World) :
  (forall rm1 rm2 : string -> option error,
      fst (DefaultPrinterService_PrintPDFFromURL (withRemoveErr env rm1)
             ParseRequestURI d fileURL printerName w)
      = fst (DefaultPrinterService_PrintPDFFromURL (withRemoveErr env rm2)
               ParseRequestURI d fileURL printerName w)) /\
  (forall u filePath w1 w2 e,
      PrinterExists (Service_PrinterManager d) printerName w = (Ok true, w1) ->
      ParseRequestURI fileURL = Ok u ->
      Scheme u = "http" \/ Scheme u = "https" ->
      downloadFile env fileURL w1 = (Ok filePath, w2) ->
      remove_err env filePath = Some e ->
      exists w3,
        wrapping "error al imprimir el archivo: "
          (PrintFile (Service_DocumentPrinter d) filePath printerName)
          (Logger_Infof ("Archivo descargado: " +:+ filePath) w2)
        = (fst (DefaultPrinterService_PrintPDFFromURL env ParseRequestURI d
                  fileURL printerName w), w3) /\
        snd (DefaultPrinterService_PrintPDFFromURL env ParseRequestURI d
               fileURL printerName w)
        = {| trace :=
               trace w3
               ++ [ EvRemove filePath;
                    EvLog ("[ERROR] Error al eliminar archivo temporal: "
                           +:+ Error e) ];
             files := files w3 |}).
Proof.
  split.
  - intros rm1 rm2.
    unfold DefaultPrinterService_PrintPDFFromURL, bind.
    unfold wrapping at 1 4.
    destruct (PrinterExists _ printerName w) as [[[]|e] w1]; cbn [negb];
      [|reflexivity..].
    destruct (ParseRequestURI fileURL) as [u|e]; [|reflexivity].
    destruct (negb _ && negb _); [reflexivity|].
    change (downloadFile (withRemoveErr env rm1)) with (downloadFile env).
    change (downloadFile (withRemoveErr env rm2)) with (downloadFile env).
    unfold wrapping at 1 3.
    destruct (downloadFile env fileURL w1) as [[filePath|e] w2]; [|reflexivity].
    unfold deferring, act.
    now destruct (wrapping _ _ _) as [r w3].
  - intros u filePath w1 w2 e Hcheck Hparse Hscheme Hload Hrm.
    rewrite (PrintPDFFromURL_downloaded _ _ _ _ _ _ _ _ _ _
               Hcheck Hparse Hscheme Hload).
    destruct (wrapping _ _ _) as [r w3]. exists w3. cbn [fst snd].
    split; [reflexivity|].
    rewrite (removeTemp_fails _ _ _ _ Hrm). unfold emit; cbn [trace files].
    now rewrite <- app_assoc.
Qed.

Lemma PrintPDFFromURL_cleanup_failure_not_propagated_witness :
  fst (DefaultPrinterService_PrintPDFFromURL
         (sampleEnv sampleOutput (Ok okResponse) "/tmp/1.pdf"
            (Some (errorString "exit status 1"))
            (Some (errorString "remove /tmp/1.pdf: access is denied")))
         sampleParseRequestURI
         (mainService
            (sampleEnv sampleOutput (Ok okResponse) "/tmp/1.pdf"
               (Some (errorString "exit status 1")) None)
            "./PDFtoPrinter.exe" "./drawer_open_command.txt")
         "http://x/doc.pdf" "HP" emptyWorld)
  = fst (DefaultPrinterService_PrintPDFFromURL
           (sampleEnv sampleOutput (Ok okResponse) "/tmp/1.pdf"
              (Some (errorString "exit status 1")) None)
           sampleParseRequestURI
           (mainService
              (sampleEnv sampleOutput (Ok okResponse) "/tmp/1.pdf"
                 (Some (errorString "exit status 1")) None)
              "./PDFtoPrinter.exe" "./drawer_open_command.txt")
           "http://x/doc.pdf" "HP" emptyWorld) /\
  exists w3,
    snd (DefaultPrinterService_PrintPDFFromURL
           (sampleEnv sampleOutput (Ok okResponse) "/tmp/1.pdf"
              (Some (errorString "exit status 1"))
              (Some (errorString "remove /tmp/1.pdf: access is denied")))
           sampleParseRequestURI
           (mainService
              (sampleEnv sampleOutput (Ok okResponse) "/tmp/1.pdf"
                 (Some (errorString "exit status 1")) None)
              "./PDFtoPrinter.exe" "./drawer_open_command.txt")
           "http://x/doc.pdf" "HP" emptyWorld)
    = {| trace :=
           trace w3
           ++ [ EvRemove "/tmp/1.pdf";
                EvLog ("[ERROR] Error al eliminar archivo temporal: "
                       +:+ "remove /tmp/1.pdf: access is denied") ];
         files := files w3 |}.
Proof.
  split.
  - destruct (PrintPDFFromURL_cleanup_failure_not_propagated
                (sampleEnv sampleOutput (Ok okResponse) "/tmp/1.pdf"
                   (Some (errorString "exit status 1")) None)
                sampleParseRequestURI
                (mainService
                   (sampleEnv sampleOutput (Ok okResponse) "/tmp/1.pdf"
                      (Some (errorString "exit status 1")) None)
                   "./PDFtoPrinter.exe" "./drawer_open_command.txt")
                "http://x/doc.pdf" "HP" emptyWorld) as [Hsame _].
    exact (Hsame
             (fun _ => Some (errorString "remove /tmp/1.pdf: access is denied"))
             (fun _ => None)).
  - destruct (PrintPDFFromURL_cleanup_failure_not_propagated
                (sampleEnv sampleOutput (Ok okResponse) "/tmp/1.pdf"
                   (Some (errorString "exit status 1"))
                   (Some (errorString "remove /tmp/1.pdf: access is denied")))
                sampleParseRequestURI
                (mainService
                   (sampleEnv sampleOutput (Ok okResponse) "/tmp/1.pdf"
                      (Some (errorString "exit status 1")) None)
                   "./PDFtoPrinter.exe" "./drawer_open_command.txt")
                "http://x/doc.pdf" "HP" emptyWorld) as [_ Hlog].
    destruct (Hlog {| Scheme := "http"; Host := EmptyString; Path := "//x/doc.pdf" |}
                "/tmp/1.pdf"
                (emit (EvExec "powershell" listPrintersArgs) emptyWorld)
                {| trace := [ EvExec "powershell" listPrintersArgs;
                              EvHTTPGet "http://x/doc.pdf";
                              EvCreateTemp "/tmp/1.pdf";
                              EvCopy "/tmp/1.pdf" ];
                   files := {["/tmp/1.pdf"]} |}
                (errorString "remove /tmp/1.pdf: access is denied"))
      as (w3 & _ & Hw3).
    + vm_compute. reflexivity.
    + vm_compute. reflexivity.
    + left. reflexivity.
    + vm_compute. reflexivity.
    + reflexivity.
    + exists w3. exact Hw3.
Defined.

(** ** The existence check against the records *)

(** C1: the run on an enumeration with one printer, [HP], whose driver is
    called [HP2].  [GetPrinters] returns one record, named [HP], and no
    record named [HP2]; yet [PrinterExists] answers true for [HP2], because
    the line holds the text [Name=HP2;] inside [DriverName=HP2;]. *)
Theorem PrinterExists_matches_driver_name :
  fst (WindowsPrinterManager_PrinterExists
         (sampleEnv sampleOutput (Ok okResponse) "/tmp/1.pdf" None None)
         "HP2" emptyWorld) = Ok true /\
  exists records,
    fst (DefaultPrinterService_GetPrinters
           (mainService
              (sampleEnv sampleOutput (Ok okResponse) "/tmp/1.pdf" None None)
              "./PDFtoPrinter.exe" "./drawer_open_command.txt")
           emptyWorld) = Ok records /\
    length records = 1 /\
    recordNamed "HP" records = true /\
    recordNamed "HP2" records = false.
Proof.
  split; [vm_compute; reflexivity|].
  eexists. split; [vm_compute; reflexivity|].
  split; [reflexivity|]. split; vm_compute; reflexivity.
Qed.

(** ** Validation and process launches *)

Lemma eqb_nonempty (s : string) : s <> EmptyString -> String.eqb s EmptyString = false.
Proof. intros H. now destruct (String.eqb_spec s EmptyString). Qed.

(** The reply of [PrintHandler] to a POST whose fields are filled in, when
    the service fails with [err] having started the enumeration only. *)
Lemma PrintHandler_service_error env ParseRequestURI pdf drawer req err
    (w : World) :
  Req_URL req <> EmptyString -> Req_Printer req <> EmptyString ->
  DefaultPrinterService_PrintPDFFromURL env ParseRequestURI
    (mainService env pdf drawer) (Req_URL req) (Req_Printer req)
    (Logger_Info "Received request: /print" w)
  = (Err err,
     emit (EvExec "powershell" listPrintersArgs)
       (Logger_Info "Received request: /print" w)) ->
  PrintHandler (mainHandlers env ParseRequestURI pdf drawer)
    {| Method := "POST"; Body := Ok req |} w
  = (WriteErrorJSON 500 "Error al imprimir el archivo" (Some err),
     {| trace :=
          trace w
          ++ [ EvLog "[INFO] Received request: /print";
               EvExec "powershell" listPrintersArgs;
               EvLog ("[ERROR] Error al imprimir: " +:+ Error err) ];
        files := files w |}).
Proof.
  intros Hurl Hprinter Hrun. unfold PrintHandler. cbn [Method Body negb].
  rewrite (eqb_nonempty _ Hurl), (eqb_nonempty _ Hprinter).
  cbn [orb String.eqb Ascii.eqb Bool.eqb negb].
  cbn [mainHandlers Service PrintPDFFromURL DefaultPrinterService_PrinterService].
  rewrite Hrun. f_equal.
  unfold Logger_Errorf, Logger_Error, Logger_Info, emit; cbn [trace files].
  now rewrite <- !app_assoc.
Qed.

Lemma launchesOf_filled req :
  Req_URL req <> EmptyString -> Req_Printer req <> EmptyString ->
  launchesOf req = [EvExec "powershell" listPrintersArgs].
Proof.
  intros Hurl Hprinter. unfold launchesOf.
  now rewrite (eqb_nonempty _ Hurl), (eqb_nonempty _ Hprinter).
Qed.

Lemma PrintHandler_service_error_summary env ParseRequestURI pdf drawer req
    err (w : World) :
  Req_URL req <> EmptyString -> Req_Printer req <> EmptyString ->
  DefaultPrinterService_PrintPDFFromURL env ParseRequestURI
    (mainService env pdf drawer) (Req_URL req) (Req_Printer req)
    (Logger_Info "Received request: /print" w)
  = (Err err,
     emit (EvExec "powershell" listPrintersArgs)
       (Logger_Info "Received request: /print" w)) ->
  exists reply w',
    PrintHandler (mainHandlers env ParseRequestURI pdf drawer)
      {| Method := "POST"; Body := Ok req |} w = (reply, w') /\
    (reply_status reply = 400 \/ reply_status reply = 500)%Z /\
    is_Some (reply_body reply !! "error") /\
    files w' = files w /\
    List.filter isHTTPGet (trace w') = List.filter isHTTPGet (trace w) /\
    List.filter isExec (trace w') = List.filter isExec (trace w) ++ launchesOf req.
Proof.
  intros Hurl Hprinter Hrun.
  rewrite (PrintHandler_service_error _ _ _ _ _ _ _ Hurl Hprinter Hrun).
  do 2 eexists. split; [reflexivity|].
  split; [now right|]. split.
  - cbn [WriteErrorJSON WriteJSON reply_body].
    rewrite lookup_insert_ne by discriminate.
    rewrite lookup_singleton_eq. eauto.
  - cbn [trace files]. split; [reflexivity|].
    rewrite (launchesOf_filled _ Hurl Hprinter).
    rewrite !List.filter_app. cbn. now rewrite !app_nil_r.
Qed.

(** C4, amended: a [/print] request that fails validation is answered with
    an error before anything is fetched and before the print tool is
    started, and no file is left.  An empty field is answered with no
    process started at all; an unknown printer, a URL that does not parse
    and a scheme other than http and https are answered after the existence
    check, whose enumeration is the one process the request has started. *)
Theorem PrintHandler_validation_before_fetch_and_print
    (env : Env) (ParseRequestURI : string -> result URL)
    (pdfPrinterPath drawerCommandPath : string)
    (req : PrintRequest) (w : World) :
  validationFailure env ParseRequestURI req ->
  exists reply w',
    PrintHandler
      (mainHandlers env ParseRequestURI pdfPrinterPath drawerCommandPath)
      {| Method := "POST"; Body := Ok req |} w = (reply, w') /\
    (reply_status reply = 400 \/ reply_status reply = 500)%Z /\
    is_Some (reply_body reply !! "error") /\
    files w' = files w /\
    List.filter isHTTPGet (trace w') = List.filter isHTTPGet (trace w) /\
    List.filter isExec (trace w') = List.filter isExec (trace w) ++ launchesOf req.
Proof.
  intros [Hempty | out Hurl Hprinter Hrun Habsent
                 | out Hurl Hprinter Hrun Hlisted Hbad].
  - assert (Hcond : String.eqb (Req_URL req) EmptyString
                    || String.eqb (Req_Printer req) EmptyString = true).
    { destruct Hempty as [-> | ->]; [reflexivity|]. apply orb_true_r. }
    unfold PrintHandler, launchesOf. cbn [Method Body]. rewrite Hcond.
    cbn [String.eqb Ascii.eqb Bool.eqb negb].
    do 2 eexists. split; [reflexivity|].
    split; [now left|]. split.
    + cbn [WriteErrorJSON WriteJSON reply_body].
      rewrite lookup_singleton_eq. eauto.
    + unfold Logger_Warn, Logger_Info, emit; cbn [trace files].
      split; [reflexivity|].
      rewrite !List.filter_app. cbn. now rewrite !app_nil_r.
  - eapply PrintHandler_service_error_summary; [exact Hurl|exact Hprinter|].
    apply PrintPDFFromURL_absent.
    cbn [mainService Service_PrinterManager PrinterExists WindowsPrinterManager].
    now rewrite (PrinterExists_run env out _ _ Hrun), Habsent.
  - destruct (PrintPDFFromURL_bad_url env ParseRequestURI
                (mainService env pdfPrinterPath drawerCommandPath)
                (Req_URL req) (Req_Printer req)
                (Logger_Info "Received request: /print" w)
                (emit (EvExec "powershell" listPrintersArgs)
                   (Logger_Info "Received request: /print" w)))
      as (e & Heq & _); [|exact Hbad|].
    + cbn [mainService Service_PrinterManager PrinterExists WindowsPrinterManager].
      now rewrite (PrinterExists_run env out _ _ Hrun), Hlisted.
    + eapply PrintHandler_service_error_summary; eassumption.
Qed.

Lemma PrintHandler_validation_before_fetch_and_print_witness :
  exists reply w',
    PrintHandler
      (mainHandlers
         (sampleEnv sampleOutput (Ok okResponse) "/tmp/1.pdf" None None)
         sampleParseRequestURI "./PDFtoPrinter.exe" "./drawer_open_command.txt")
      {| Method := "POST";
         Body := Ok {| Req_URL := "file:///etc/passwd"; Req_Printer := "HP" |} |}
      emptyWorld = (reply, w') /\
    (reply_status reply = 400 \/ reply_status reply = 500)%Z /\
    is_Some (reply_body reply !! "error") /\
    files w' = ∅ /\
    List.filter isHTTPGet (trace w') = [] /\
    List.filter isExec (trace w') = [EvExec "powershell" listPrintersArgs].
Proof.
  apply (PrintHandler_validation_before_fetch_and_print
           (sampleEnv sampleOutput (Ok okResponse) "/tmp/1.pdf" None None)
           sampleParseRequestURI "./PDFtoPrinter.exe" "./drawer_open_command.txt"
           {| Req_URL := "file:///etc/passwd"; Req_Printer := "HP" |}
           emptyWorld).
  apply (BadURL _ _ _ sampleOutput).
  - discriminate.
  - discriminate.
  - reflexivity.
  - vm_compute. reflexivity.
  - intros u Hu. vm_compute in Hu. injection Hu as <-. split; discriminate.
Defined.

(** C4 as stated fails: two requests that fail validation, one for a
    printer the enumeration does not list and one with a [file] URL, have
    each started one process, the enumeration, when the error is
    returned. *)
Lemma PrintHandler_validation_launches_enumeration :
  validationFailure
    (sampleEnv sampleOutput (Ok okResponse) "/tmp/1.pdf" None None)
    sampleParseRequestURI
    {| Req_URL := "http://x/doc.pdf"; Req_Printer := "Ghost" |} /\
  List.filter isExec
    (trace (snd (PrintHandler
                   (mainHandlers
                      (sampleEnv sampleOutput (Ok okResponse) "/tmp/1.pdf"
                         None None)
                      sampleParseRequestURI
                      "./PDFtoPrinter.exe" "./drawer_open_command.txt")
                   {| Method := "POST";
                      Body := Ok {| Req_URL := "http://x/doc.pdf";
                                    Req_Printer := "Ghost" |} |}
                   emptyWorld)))
  = [EvExec "powershell" listPrintersArgs] /\
  validationFailure
    (sampleEnv sampleOutput (Ok okResponse) "/tmp/1.pdf" None None)
    sampleParseRequestURI
    {| Req_URL := "file:///etc/passwd"; Req_Printer := "HP" |} /\
  List.filter isExec
    (trace (snd (PrintHandler
                   (mainHandlers
                      (sampleEnv sampleOutput (Ok okResponse) "/tmp/1.pdf"
                         None None)
                      sampleParseRequestURI
                      "./PDFtoPrinter.exe" "./drawer_open_command.txt")
                   {| Method := "POST";
                      Body := Ok {| Req_URL := "file:///etc/passwd";
                                    Req_Printer := "HP" |} |}
                   emptyWorld)))
  = [EvExec "powershell" listPrintersArgs].
Proof.
  split; [|split; [|split]].
  - apply (UnknownPrinter _ _ _ sampleOutput);
      [discriminate|discriminate|reflexivity|vm_compute; reflexivity].
  - vm_compute. reflexivity.
  - apply (BadURL _ _ _ sampleOutput);
      [discriminate|discriminate|reflexivity|vm_compute; reflexivity|].
    intros u Hu. vm_compute in Hu. injection Hu as <-. split; discriminate.
  - vm_compute. reflexivity.
Qed.

(** * Further properties *)

(** ** Trimmed strings *)

Lemma CutPrefix_app (r x : string) : strings.CutPrefix (r +:+ x) r = Some x.
Proof.
  induction r as [|c r IH].
  - rewrite app_empty. now destruct x.
  - rewrite app_String. cbn. now rewrite Ascii.eqb_refl.
Qed.

Lemma dropRune_is_Some runes (r x : string) :
  r ∈ runes -> is_Some (strings.dropRune runes (r +:+ x)).
Proof.
  induction runes as [|r0 runes IH]; intros Hin.
  - now apply elem_of_nil in Hin.
  - cbn. destruct (strings.CutPrefix (r +:+ x) r0) eqn:Hcut; [eauto|].
    apply elem_of_cons in Hin as [->|Hin]; [|now apply IH].
    rewrite CutPrefix_app in Hcut. discriminate.
Qed.

Lemma dropRune_front_None runes (t q : string) :
  strings.dropRune runes (t +:+ q) = None -> strings.dropRune runes t = None.
Proof.
  intros Hnone. destruct (strings.dropRune runes t) as [t'|] eqn:Hdrop;
    [|reflexivity].
  destruct (dropRune_Some _ _ _ Hdrop) as (r & Hin & ->).
  rewrite string_app_assoc in Hnone.
  destruct (dropRune_is_Some runes r (t' +:+ q) Hin) as [y Hy]. congruence.
Qed.

Lemma trimLeftRunes_fixed fuel runes (s : string) :
  strings.dropRune runes s = None -> strings.trimLeftRunes fuel runes s = s.
Proof. intros H. destruct fuel; cbn; [reflexivity|]. now rewrite H. Qed.

(** What [TrimSpace] returns starts and ends with no white space, so
    trimming it again changes nothing. *)
Lemma TrimSpace_idempotent (s : string) :
  strings.TrimSpace (strings.TrimSpace s) = strings.TrimSpace s.
Proof.
  unfold strings.TrimSpace at 1.
  set (u := strings.TrimLeftSpace s).
  assert (Hu : strings.dropRune strings.spaceRunes u = None)
    by apply TrimLeftSpace_done.
  assert (Ht : strings.TrimSpace s = strings.TrimRightSpace u) by reflexivity.
  rewrite Ht.
  set (x := strings.trimLeftRunes (String.length u)
              (map String.rev strings.spaceRunes) (String.rev u)).
  assert (Hx : strings.TrimRightSpace u = String.rev x) by reflexivity.
  assert (Hxdone : strings.dropRune (map String.rev strings.spaceRunes) x = None).
  { rewrite <- (rev_involutive x), <- Hx. apply TrimRightSpace_done. }
  destruct (trimLeftRunes_split (String.length u)
              (map String.rev strings.spaceRunes) (String.rev u))
    as (p & _ & Hsplit).
  { apply Forall_map. eapply Forall_impl; [exact spaceRunes_noSeparator|].
    intros r. apply noSeparator_rev. }
  fold x in Hsplit.
  assert (Hufront : u = String.rev x +:+ String.rev p).
  { rewrite <- (rev_involutive u), Hsplit. apply rev_app_distr. }
  assert (Hleft : strings.TrimLeftSpace (String.rev x) = String.rev x).
  { unfold strings.TrimLeftSpace. apply trimLeftRunes_fixed.
    apply (dropRune_front_None _ _ (String.rev p)). now rewrite <- Hufront. }
  rewrite Hx, Hleft. unfold strings.TrimRightSpace.
  rewrite rev_involutive. now rewrite trimLeftRunes_fixed.
Qed.

Lemma splitAndTrimLoop_filter parts result :
  splitAndTrimLoop parts result
  = result ++ filter (fun l => l <> EmptyString) (map strings.TrimSpace parts).
Proof.
  revert result. induction parts as [|part rest IH]; intros result.
  - cbn. now rewrite app_nil_r.
  - cbn [splitAndTrimLoop map]. rewrite filter_cons.
    destruct (String.eqb_spec (strings.TrimSpace part) EmptyString) as [Heq|Hne];
      cbn [negb].
    + rewrite decide_False by (intros H; now apply H). apply IH.
    + rewrite decide_True by exact Hne. rewrite IH. now rewrite <- app_assoc.
Qed.

Lemma trimmed_entries (parts : list string) (x : string) :
  x ∈ filter (fun l => l <> EmptyString) (map strings.TrimSpace parts) <->
  x <> EmptyString /\ exists part, part ∈ parts /\ strings.TrimSpace part = x.
Proof.
  rewrite list_elem_of_filter, list_elem_of_fmap. split.
  - intros (Hne & part & -> & Hin). split; [exact Hne|]. now exists part.
  - intros (Hne & part & Hin & <-). split; [exact Hne|]. now exists part.
Qed.

(** [splitAndTrim] as a filter over the trimmed pieces, and what that says
    of each entry. *)
Lemma splitAndTrim_pieces (s : string) (sep : ascii) :
  splitAndTrim s sep
  = filter (fun l => l <> EmptyString)
      (map strings.TrimSpace (strings.Split s sep)) /\
  (forall x, x ∈ splitAndTrim s sep ->
             x <> EmptyString /\ strings.TrimSpace x = x /\
             exists part, part ∈ strings.Split s sep /\
                          strings.TrimSpace part = x).
Proof.
  assert (Heq : splitAndTrim s sep
                = filter (fun l => l <> EmptyString)
                    (map strings.TrimSpace (strings.Split s sep))).
  { unfold splitAndTrim. now rewrite splitAndTrimLoop_filter. }
  split; [exact Heq|]. intros x Hin. rewrite Heq in Hin.
  apply trimmed_entries in Hin as (Hne & part & Hpart & <-).
  split; [exact Hne|]. split; [apply TrimSpace_idempotent|]. now exists part.
Qed.

(** X1: [splitAndTrim] returns the pieces between the separators, trimmed,
    without the blank ones and in their order; so every entry is non-empty
    and has no white space at either end. *)
Theorem splitAndTrim_entries (s : string) (sep : ascii) :
  splitAndTrim s sep
  = filter (fun l => l <> EmptyString)
      (map strings.TrimSpace (strings.Split s sep)) /\
  (forall x, x ∈ splitAndTrim s sep ->
             x <> EmptyString /\ strings.TrimSpace x = x /\
             exists part, part ∈ strings.Split s sep /\
                          strings.TrimSpace part = x).
Proof. exact (splitAndTrim_pieces s sep). Qed.

Lemma splitAndTrim_entries_witness :
  splitAndTrim " https://a.example , ,https://b.example," ","
  = ["https://a.example"; "https://b.example"] /\
  "https://a.example" <> EmptyString /\
  strings.TrimSpace "https://a.example" = "https://a.example".
Proof.
  destruct (splitAndTrim_entries " https://a.example , ,https://b.example," ",")
    as [Heq Hall].
  split; [vm_compute; reflexivity|].
  destruct (Hall "https://a.example") as (Hne & Htrim & _).
  - vm_compute. left.
  - now split.
Defined.

(** X2: every line [ListPrinters] returns is non-empty and has no white
    space at either end (the carriage return PowerShell ends its lines with
    is gone), and it is the trimmed text of a line of the output. *)
Theorem ListPrinters_lines_trimmed (env : Env) (out : string) (w : World) :
  exec_run env "powershell" listPrintersArgs = (out, None) ->
  exists lines,
    WindowsPrinterManager_ListPrinters env w
    = (Ok lines, emit (EvExec "powershell" listPrintersArgs) w) /\
    length lines <= length (strings.Split out "010") /\
    forall line, line ∈ lines ->
      line <> EmptyString /\ strings.TrimSpace line = line /\
      exists raw, raw ∈ strings.Split out "010" /\
                  strings.TrimSpace raw = line.
Proof.
  intros Hrun. exists (printerLines out).
  split; [now apply ListPrinters_run|]. split.
  - unfold printerLines.
    etransitivity; [apply length_filter|]. now rewrite length_map.
  - intros line Hin. unfold printerLines in Hin.
    apply trimmed_entries in Hin as (Hne & raw & Hraw & <-).
    split; [exact Hne|]. split; [apply TrimSpace_idempotent|]. now exists raw.
Qed.

Lemma ListPrinters_lines_trimmed_witness :
  exists lines,
    WindowsPrinterManager_ListPrinters
      (sampleEnv sampleListing (Ok okResponse) "/tmp/1.pdf" None None) emptyWorld
    = (Ok lines, emit (EvExec "powershell" listPrintersArgs) emptyWorld) /\
    length lines <= 5.
Proof.
  destruct (ListPrinters_lines_trimmed
              (sampleEnv sampleListing (Ok okResponse) "/tmp/1.pdf" None None)
              sampleListing emptyWorld eq_refl) as (lines & Hrun & Hlen & _).
  exists lines. split; [exact Hrun|exact Hlen].
Defined.


(** ** What the existence check matches *)

Lemma HasPrefix_true (s pre : string) :
  strings.HasPrefix s pre = true <-> exists b, s = pre +:+ b.
Proof.
  revert s. induction pre as [|p pre IH]; intros s.
  - split; [intros _; now exists s|]. intros _. now destruct s.
  - destruct s as [|x s]; cbn.
    + split; [discriminate|]. intros [b Hb]. rewrite app_String in Hb.
      discriminate.
    + rewrite andb_true_iff, IH. split.
      * intros [Hx [b ->]]. apply Ascii.eqb_eq in Hx as ->. now exists b.
      * intros [b Hb]. rewrite app_String in Hb. injection Hb as -> ->.
        split; [apply Ascii.eqb_refl|now exists b].
Qed.

Lemma Contains_true (s sub : string) :
  strings.Contains s sub = true <-> exists a b, s = a +:+ sub +:+ b.
Proof.
  split.
  - induction s as [|x s IH]; cbn [strings.Contains]; rewrite orb_true_iff.
    + intros [H|H]; [|discriminate]. apply HasPrefix_true in H as [b Hb].
      now exists EmptyString, b.
    + intros [H|H].
      * apply HasPrefix_true in H as [b Hb]. now exists EmptyString, b.
      * destruct (IH H) as (a & b & ->). now exists (String x a), b.
  - intros (a & b & ->). induction a as [|x a IH].
    + rewrite app_empty. destruct (sub +:+ b) eqn:Heq; cbn [strings.Contains];
        rewrite orb_true_iff; left; apply HasPrefix_true; now exists b.
    + rewrite app_String. cbn [strings.Contains]. rewrite IH. apply orb_true_r.
Qed.

Lemma Split_app_sep (a b : string) sep :
  strings.Split (a +:+ String sep b) sep
  = strings.Split a sep ++ strings.Split b sep.
Proof.
  induction a as [|x a IH].
  - rewrite app_empty. cbn. now rewrite Ascii.eqb_refl.
  - rewrite app_String. cbn [strings.Split]. rewrite IH.
    destruct (Ascii.eqb x sep); [reflexivity|].
    destruct (strings.Split a sep) as [|p ps] eqn:Ha;
      [now apply Split_not_nil in Ha|reflexivity].
Qed.

Lemma Split_app_clean (a c : string) sep :
  strings.IndexByte c sep = None ->
  exists ts t,
    strings.Split a sep = ts ++ [t] /\
    strings.Split (a +:+ c) sep = ts ++ [t +:+ c].
Proof.
  intros Hc. induction a as [|x a IH].
  - exists [], EmptyString. rewrite !app_empty. split; [reflexivity|].
    now apply Split_clean.
  - destruct IH as (ts & t & Ha & Hac).
    rewrite app_String. cbn [strings.Split]. rewrite Ha, Hac.
    destruct (Ascii.eqb x sep).
    + now exists (EmptyString :: ts), t.
    + destruct ts as [|p ps].
      * now exists [], (String x t).
      * now exists (String x p :: ps), t.
Qed.

Lemma rev_inj (a b : string) : String.rev a = String.rev b -> a = b.
Proof.
  intros H. rewrite <- (rev_involutive a), <- (rev_involutive b).
  now rewrite H.
Qed.

(** The text after the last ['='] determines the cut. *)
Lemma last_equals_unique (a1 b1 a2 b2 : string) :
  strings.IndexByte b1 "=" = None ->
  strings.IndexByte b2 "=" = None ->
  a1 +:+ String "=" b1 = a2 +:+ String "=" b2 ->
  a1 = a2 /\ b1 = b2.
Proof.
  intros H1 H2 Heq.
  assert (Hrev : forall a b,
             String.rev (a +:+ String "=" b)
             = String.rev b +:+ String "=" (String.rev a)).
  { intros a b. rewrite rev_app_distr, rev_String, string_app_assoc.
    reflexivity. }
  apply (f_equal String.rev) in Heq. rewrite !Hrev in Heq.
  pose proof (Cut_first (String.rev b1) (String.rev a1) "="
                (IndexByte_rev_None _ _ H1)) as C1.
  pose proof (Cut_first (String.rev b2) (String.rev a2) "="
                (IndexByte_rev_None _ _ H2)) as C2.
  rewrite Heq, C2 in C1. injection C1 as Hb Ha.
  split; apply rev_inj; congruence.
Qed.

Lemma Join_cons (y : string) (rest : list string) (sep : string) :
  rest <> [] ->
  strings.Join (y :: rest) sep = y +:+ sep +:+ strings.Join rest sep.
Proof. destruct rest; [done|reflexivity]. Qed.

Lemma Join_app_front (xs zs : list string) (sep : string) :
  zs <> [] ->
  exists front,
    strings.Join (xs ++ zs) sep = front +:+ strings.Join zs sep.
Proof.
  intros Hzs. induction xs as [|x xs [front IH]].
  - now exists EmptyString.
  - exists (x +:+ sep +:+ front). cbn [app].
    rewrite Join_cons by (destruct xs; [exact Hzs|discriminate]).
    rewrite IH. now rewrite !string_app_assoc.
Qed.

Lemma plainPair_clean (pairs : list (string * string)) :
  Forall plainPair pairs -> Forall cleanPair pairs.
Proof. intros H. eapply Forall_impl; [exact H|]. now intros kv [Hc _]. Qed.

(** The test of [PrinterExists] on a line, read on its properties. *)
Lemma Contains_Name_pairs (pairs : list (string * string)) (name : string) :
  pairs <> [] ->
  Forall plainPair pairs ->
  noSeparator name ->
  strings.Contains (lineOf pairs) ("Name=" +:+ name +:+ ";") = true <->
  exists before k after,
    pairs = before ++ (k, name) :: after /\
    after <> [] /\
    endsWith k "Name".
Proof.
  intros Hne Hplain [Hsemi Hequal]. split.
  - intros (a & b & Hline)%Contains_true.
    pose proof (lineOf_Split pairs Hne (plainPair_clean _ Hplain)) as Htokens.
    assert (Hcut : lineOf pairs = (a +:+ "Name=" +:+ name) +:+ String ";" b).
    { rewrite Hline. rewrite !string_app_assoc. reflexivity. }
    rewrite Hcut, Split_app_sep in Htokens.
    destruct (Split_app_clean a ("Name=" +:+ name) ";") as (ts & t & _ & Hlast).
    { change ("Name=" +:+ name) with (String "N" (String "a" (String "m"
        (String "e" (String "=" name))))). cbn. now rewrite Hsemi. }
    rewrite Hlast in Htokens. symmetry in Htokens.
    apply List.map_eq_app in Htokens as (l1 & after & -> & Hl1 & Hafter).
    apply List.map_eq_app in Hl1 as (before & l & -> & _ & Hl).
    destruct l as [|[k v] [|? ?]]; try discriminate.
    cbn [map] in Hl. injection Hl as Hkv.
    apply Forall_app in Hplain as [Hplain _].
    apply Forall_app in Hplain as [_ Hplain].
    apply Forall_cons in Hplain as [[_ Hv] _]. cbn [snd] in Hv.
    unfold propertyText in Hkv; cbn [fst snd] in Hkv.
    destruct (last_equals_unique k v (t +:+ "Name") name Hv Hequal)
      as [-> ->].
    { change (k +:+ "=" +:+ v = (t +:+ "Name") +:+ "=" +:+ name).
      rewrite Hkv. rewrite !string_app_assoc. reflexivity. }
    exists before, (t +:+ "Name"), after. split.
    + now rewrite <- app_assoc.
    + split; [|now exists t]. intros ->.
      destruct (strings.Split b ";") eqn:Hb; [now apply Split_not_nil in Hb|].
      discriminate.
  - intros (before & k & after & -> & Hafter & front & ->).
    apply Contains_true. unfold lineOf. rewrite map_app. cbn [map].
    destruct (Join_app_front (map propertyText before)
                (propertyText (front +:+ "Name", name)
                 :: map propertyText after) ";")
      as [pre Hpre]; [discriminate|].
    rewrite Hpre, Join_cons by (destruct after; [done|discriminate]).
    exists (pre +:+ front), (strings.Join (map propertyText after) ";").
    unfold propertyText; cbn [fst snd]. rewrite !string_app_assoc.
    reflexivity.
Qed.

(** X3: on a line of [key=value] properties whose values hold no ['='],
    the test of [PrinterExists] succeeds exactly when a property that is not
    the last one of the line has the requested name as its value and a key
    that ends in [Name]. *)
Theorem Contains_Name_tokens (pairs : list (string * string)) (name : string) :
  pairs <> [] ->
  Forall plainPair pairs ->
  noSeparator name ->
  strings.Contains (lineOf pairs) ("Name=" +:+ name +:+ ";") = true <->
  exists before k after,
    pairs = before ++ (k, name) :: after /\
    after <> [] /\
    endsWith k "Name".
Proof. exact (Contains_Name_pairs pairs name). Qed.

Lemma Contains_Name_tokens_witness :
  strings.Contains
    (lineOf [("Name", "HP"); ("DriverName", "HP2"); ("Location", "Hall")])
    ("Name=" +:+ "HP2" +:+ ";") = true.
Proof.
  apply (Contains_Name_tokens
           [("Name", "HP"); ("DriverName", "HP2"); ("Location", "Hall")] "HP2").
  - discriminate.
  - repeat constructor.
  - split; reflexivity.
  - exists [("Name", "HP")], "DriverName", [("Location", "Hall")].
    split; [reflexivity|]. split; [discriminate|]. now exists "Driver".
Defined.


(** ** Enumerations in the format of the command *)

Lemma rowPairs_plain (r : PrinterRow) :
  plainRow r -> Forall plainPair (rowPairs r).
Proof.
  intros ([] & [] & [] & [] & []).
  repeat constructor; assumption.
Qed.

Lemma endsWith_rev (s suffix : string) :
  endsWith s suffix ->
  strings.HasPrefix (String.rev s) (String.rev suffix) = true.
Proof.
  intros [front ->]. rewrite rev_app_distr. apply HasPrefix_true. eauto.
Qed.

Lemma row_tokens (r : PrinterRow) (name : string) :
  (exists before k after,
      rowPairs r = before ++ (k, name) :: after /\
      after <> [] /\ endsWith k "Name") <->
  Row_Name r = name \/ Row_DriverName r = name \/ Row_PortName r = name.
Proof.
  unfold rowPairs, printerPairs. split.
  - intros (before & k & after & Heq & Hafter & Hk).
    destruct before as [|? [|? [|? [|? [|? ?]]]]]; cbn [app] in Heq.
    + injection Heq as _ Hn _. now left.
    + injection Heq as _ _ Hd _. right. now left.
    + injection Heq as _ _ _ Hp _. right. now right.
    + injection Heq as _ _ _ Hk' _ _. subst k.
      apply endsWith_rev in Hk. vm_compute in Hk. discriminate.
    + injection Heq as _ _ _ _ _ _ Hnil. now subst after.
    + destruct l; discriminate.
  - intros [<- | [<- | <-]].
    + exists [], "Name", (tl (rowPairs r)).
      split; [reflexivity|]. split; [discriminate|]. now exists EmptyString.
    + exists (take 1 (rowPairs r)), "DriverName", (drop 2 (rowPairs r)).
      split; [reflexivity|]. split; [discriminate|]. now exists "Driver".
    + exists (take 2 (rowPairs r)), "PortName", (drop 3 (rowPairs r)).
      split; [reflexivity|]. split; [discriminate|]. now exists "Port".
Qed.

(** The substring test over the lines of an enumeration that prints one
    line per printer: it succeeds exactly when the name is the [Name], the
    [DriverName] or the [PortName] of a printer. *)
Lemma anyListed_rows (out : string) (rows : list PrinterRow) (name : string) :
  printerLines out = map rowLine rows ->
  Forall plainRow rows ->
  noSeparator name ->
  anyListed (printerLines out) name = true <->
  exists r, r ∈ rows /\
            (Row_Name r = name \/ Row_DriverName r = name \/
             Row_PortName r = name).
Proof.
  intros Hlines Hplain Hname.
  rewrite anyListed_true, Hlines. rewrite Forall_forall in Hplain. split.
  - intros (line & Hin & Hcontains).
    apply list_elem_of_In, List.in_map_iff in Hin as (r & <- & Hr).
    apply list_elem_of_In in Hr. exists r. split; [exact Hr|].
    apply row_tokens.
    apply (Contains_Name_pairs (rowPairs r) name); try assumption.
    + discriminate.
    + apply rowPairs_plain. now apply Hplain.
  - intros (r & Hr & Hmatch). exists (rowLine r). split.
    + apply list_elem_of_In, List.in_map_iff. exists r.
      split; [reflexivity|]. now apply list_elem_of_In.
    + apply (Contains_Name_pairs (rowPairs r) name); try assumption.
      * discriminate.
      * apply rowPairs_plain. now apply Hplain.
      * now apply row_tokens.
Qed.

(** X4: when the enumeration prints one line per printer in the format of
    the command and no field holds [';'] or ['='], [PrinterExists], asked
    for a name that itself holds neither [';'] nor ['='], answers true
    exactly when the name is the [Name], the [DriverName] or the [PortName]
    of a printer. *)
Theorem PrinterExists_rows (env : Env) (out : string) (rows : list PrinterRow)
    (name : string) (w : World) :
  exec_run env "powershell" listPrintersArgs = (out, None) ->
  printerLines out = map rowLine rows ->
  Forall plainRow rows ->
  noSeparator name ->
  exists b,
    WindowsPrinterManager_PrinterExists env name w
    = (Ok b, emit (EvExec "powershell" listPrintersArgs) w) /\
    (b = true <->
     exists r, r ∈ rows /\
               (Row_Name r = name \/ Row_DriverName r = name \/
                Row_PortName r = name)).
Proof.
  intros Hrun Hlines Hplain Hname.
  exists (anyListed (printerLines out) name).
  split; [now apply PrinterExists_run|]. now apply anyListed_rows.
Qed.

Lemma PrinterExists_rows_witness :
  exists b,
    WindowsPrinterManager_PrinterExists
      (sampleEnv sampleOutput (Ok okResponse) "/tmp/1.pdf" None None)
      "USB001" emptyWorld
    = (Ok b, emit (EvExec "powershell" listPrintersArgs) emptyWorld) /\
    (b = true <->
     exists r,
       r ∈ [ {| Row_Name := "HP"; Row_DriverName := "HP2";
                Row_PortName := "USB001"; Row_PrinterStatus := "Normal";
                Row_Location := EmptyString |} ] /\
       (Row_Name r = "USB001" \/ Row_DriverName r = "USB001" \/
        Row_PortName r = "USB001")).
Proof.
  apply (PrinterExists_rows
           (sampleEnv sampleOutput (Ok okResponse) "/tmp/1.pdf" None None)
           sampleOutput).
  - reflexivity.
  - vm_compute. reflexivity.
  - repeat constructor.
  - split; reflexivity.
Defined.






(** ** The download *)

(** The three ways [downloadFile] ends before a file exists. *)
Lemma downloadFile_refused
    (env : Env) (fileURL : string) (w : World) :
  (forall e,
      http_get env fileURL = Err e ->
      downloadFile env fileURL w = (Err e, emit (EvHTTPGet fileURL) w)) /\
  (forall resp,
      http_get env fileURL = Ok resp ->
      StatusCode resp <> 200%Z ->
      downloadFile env fileURL w
      = (Err (errorString
                ("el servidor retornó estado no OK: "
                 +:+ pretty (StatusCode resp) +:+ " " +:+ Status resp)),
         emit (EvHTTPGet fileURL) w)) /\
  (forall resp e,
      http_get env fileURL = Ok resp ->
      StatusCode resp = 200%Z ->
      create_temp env = Err e ->
      downloadFile env fileURL w = (Err e, emit (EvHTTPGet fileURL) w)).
Proof.
  unfold downloadFile, bind, http_Get, fail. split; [|split].
  - intros e Hget. now rewrite Hget.
  - intros resp Hget Hstatus. rewrite Hget.
    destruct (Z.eqb_spec (StatusCode resp) 200); [done|reflexivity].
  - intros resp e Hget Hstatus Htmp. rewrite Hget, Hstatus.
    cbn [Z.eqb Pos.eqb negb]. unfold os_CreateTemp. now rewrite Htmp.
Qed.

(** X6: [downloadFile] creates no file unless the server answers 200: a
    transport error is returned as it is, any other status (another 2xx
    included) gives the status error, and a failure to create the temporary
    file is returned as it is; in the three cases the GET is the only
    event. *)
Theorem downloadFile_no_file_without_200
    (env : Env) (fileURL : string) (w : World) :
  (forall e,
      http_get env fileURL = Err e ->
      downloadFile env fileURL w = (Err e, emit (EvHTTPGet fileURL) w)) /\
  (forall resp,
      http_get env fileURL = Ok resp ->
      StatusCode resp <> 200%Z ->
      downloadFile env fileURL w
      = (Err (errorString
                ("el servidor retornó estado no OK: "
                 +:+ pretty (StatusCode resp) +:+ " " +:+ Status resp)),
         emit (EvHTTPGet fileURL) w)) /\
  (forall resp e,
      http_get env fileURL = Ok resp ->
      StatusCode resp = 200%Z ->
      create_temp env = Err e ->
      downloadFile env fileURL w = (Err e, emit (EvHTTPGet fileURL) w)).
Proof. exact (downloadFile_refused env fileURL w). Qed.

Lemma downloadFile_no_file_without_200_witness :
  downloadFile
    (sampleEnv sampleOutput
       (Ok {| StatusCode := 206; Status := "206 Partial Content";
              BodyCopy := None |}) "/tmp/1.pdf" None None)
    "http://x/doc.pdf" emptyWorld
  = (Err (errorString
            "el servidor retornó estado no OK: 206 206 Partial Content"),
     {| trace := [EvHTTPGet "http://x/doc.pdf"]; files := ∅ |}).
Proof.
  destruct (downloadFile_no_file_without_200
              (sampleEnv sampleOutput
                 (Ok {| StatusCode := 206; Status := "206 Partial Content";
                        BodyCopy := None |}) "/tmp/1.pdf" None None)
              "http://x/doc.pdf" emptyWorld) as (_ & Hstatus & _).
  apply (Hstatus {| StatusCode := 206; Status := "206 Partial Content";
                    BodyCopy := None |}); [reflexivity|discriminate].
Defined.

Lemma downloadFile_ok env fileURL resp tmp (w : World) :
  http_get env fileURL = Ok resp ->
  StatusCode resp = 200%Z ->
  create_temp env = Ok tmp ->
  BodyCopy resp = None ->
  downloadFile env fileURL w
  = (Ok tmp,
     {| trace := trace w ++ [EvHTTPGet fileURL; EvCreateTemp tmp; EvCopy tmp];
        files := {[tmp]} ∪ files w |}).
Proof.
  intros Hget Hstatus Htmp Hcopy.
  unfold downloadFile, bind, http_Get, os_CreateTemp, io_Copy, emit, ret.
  rewrite Hget, Hstatus, Htmp, Hcopy. cbn [trace files negb Z.eqb Pos.eqb].
  now rewrite <- !app_assoc.
Qed.

Lemma mainService_listed env pdfPrinterPath drawerCommandPath out printerName
    (w : World) :
  exec_run env "powershell" listPrintersArgs = (out, None) ->
  anyListed (printerLines out) printerName = true ->
  PrinterExists
    (Service_PrinterManager (mainService env pdfPrinterPath drawerCommandPath))
    printerName w
  = (Ok true, emit (EvExec "powershell" listPrintersArgs) w).
Proof.
  intros Hrun Hlisted.
  cbn [mainService Service_PrinterManager PrinterExists WindowsPrinterManager].
  now rewrite (PrinterExists_run env out printerName w Hrun), Hlisted.
Qed.

(** X7: the whole run of [PrintPDFFromURL] on a listed printer and an
    http(s) URL the server answers with 200: enumeration, GET, temporary
    file, copy, log line, print tool on the temporary file and the printer,
    removal, in this order.  The returned value is the one the print tool
    decides, and the temporary file is gone either way. *)
Theorem PrintPDFFromURL_pipeline
    (env : Env) (ParseRequestURI : string -> result URL)
    (pdfPrinterPath drawerCommandPath fileURL printerName out tmp : string)
    (u : URL) (resp : Response) (w : World) :
  exec_run env "powershell" listPrintersArgs = (out, None) ->
  anyListed (printerLines out) printerName = true ->
  ParseRequestURI fileURL = Ok u ->
  Scheme u = "http" \/ Scheme u = "https" ->
  http_get env fileURL = Ok resp ->
  StatusCode resp = 200%Z ->
  BodyCopy resp = None ->
  create_temp env = Ok tmp ->
  remove_err env tmp = None ->
  DefaultPrinterService_PrintPDFFromURL env ParseRequestURI
    (mainService env pdfPrinterPath drawerCommandPath) fileURL printerName w
  = (printOutcome env pdfPrinterPath tmp printerName,
     {| trace :=
          trace w
          ++ [ EvExec "powershell" listPrintersArgs;
               EvHTTPGet fileURL;
               EvCreateTemp tmp;
               EvCopy tmp;
               EvLog ("[INFO] Archivo descargado: " +:+ tmp);
               EvStdout ("Imprimiendo archivo " +:+ tmp
                         +:+ " en impresora " +:+ printerName
                         +:+ String "010" EmptyString);
               EvExec pdfPrinterPath [tmp; printerName];
               EvRemove tmp ];
        files := ({[tmp]} ∪ files w) ∖ {[tmp]} |}).
Proof.
  intros Hrun Hlisted Hparse Hscheme Hget Hstatus Hcopy Htmp Hrm.
  rewrite (PrintPDFFromURL_downloaded env ParseRequestURI _ fileURL printerName
             u tmp w (emit (EvExec "powershell" listPrintersArgs) w)
             {| trace := trace (emit (EvExec "powershell" listPrintersArgs) w)
                         ++ [EvHTTPGet fileURL; EvCreateTemp tmp; EvCopy tmp];
                files := {[tmp]} ∪ files w |});
    [|now apply (mainService_listed env _ _ out)|exact Hparse|exact Hscheme
     |now apply (downloadFile_ok env fileURL resp tmp
                   (emit (EvExec "powershell" listPrintersArgs) w))].
  rewrite (removeTemp_ok _ _ _ Hrm).
  unfold wrapping, printOutcome.
  cbn [mainService Service_DocumentPrinter PrintFile
       ExternalDocumentPrinter_DocumentPrinter].
  unfold ExternalDocumentPrinter_PrintFile, os_exec, Logger_Infof, Logger_Info,
    emit. cbn [PDFPrinterPath trace files].
  destruct (exec_run env pdfPrinterPath [tmp; printerName]) as [o [err|]];
    cbn [fst snd trace files]; rewrite <- !app_assoc; reflexivity.
Qed.

Lemma PrintPDFFromURL_pipeline_witness :
  DefaultPrinterService_PrintPDFFromURL
    (sampleEnv sampleOutput (Ok okResponse) "/tmp/1.pdf" None None)
    sampleParseRequestURI
    (mainService (sampleEnv sampleOutput (Ok okResponse) "/tmp/1.pdf" None None)
       "./PDFtoPrinter.exe" "./drawer_open_command.txt")
    "http://x/doc.pdf" "HP" emptyWorld
  = (Ok tt,
     {| trace :=
          [ EvExec "powershell" listPrintersArgs;
            EvHTTPGet "http://x/doc.pdf";
            EvCreateTemp "/tmp/1.pdf";
            EvCopy "/tmp/1.pdf";
            EvLog "[INFO] Archivo descargado: /tmp/1.pdf";
            EvStdout ("Imprimiendo archivo /tmp/1.pdf en impresora HP"
                      +:+ String "010" EmptyString);
            EvExec "./PDFtoPrinter.exe" ["/tmp/1.pdf"; "HP"];
            EvRemove "/tmp/1.pdf" ];
        files := ({["/tmp/1.pdf"]} ∪ ∅) ∖ {["/tmp/1.pdf"]} |}).
Proof.
  apply (PrintPDFFromURL_pipeline
           (sampleEnv sampleOutput (Ok okResponse) "/tmp/1.pdf" None None)
           sampleParseRequestURI "./PDFtoPrinter.exe"
           "./drawer_open_command.txt" "http://x/doc.pdf" "HP" sampleOutput
           "/tmp/1.pdf"
           {| Scheme := "http"; Host := EmptyString; Path := "//x/doc.pdf" |}
           okResponse emptyWorld).
  - reflexivity.
  - vm_compute. reflexivity.
  - vm_compute. reflexivity.
  - left. reflexivity.
  - reflexivity.
  - reflexivity.
  - reflexivity.
  - reflexivity.
  - reflexivity.
Defined.

(** X8: when the server does not answer 200, [PrintPDFFromURL] on a listed
    printer returns the status error wrapped as a download error; after the
    enumeration and the GET nothing happens: no file, no print tool, no
    removal. *)
Theorem PrintPDFFromURL_download_refused
    (env : Env) (ParseRequestURI : string -> result URL)
    (pdfPrinterPath drawerCommandPath fileURL printerName out : string)
    (u : URL) (resp : Response) (w : World) :
  exec_run env "powershell" listPrintersArgs = (out, None) ->
  anyListed (printerLines out) printerName = true ->
  ParseRequestURI fileURL = Ok u ->
  Scheme u = "http" \/ Scheme u = "https" ->
  http_get env fileURL = Ok resp ->
  StatusCode resp <> 200%Z ->
  DefaultPrinterService_PrintPDFFromURL env ParseRequestURI
    (mainService env pdfPrinterPath drawerCommandPath) fileURL printerName w
  = (Err (Errorf_w "error al descargar el archivo: "
            (errorString
               ("el servidor retornó estado no OK: "
                +:+ pretty (StatusCode resp) +:+ " " +:+ Status resp))),
     {| trace := trace w ++ [ EvExec "powershell" listPrintersArgs;
                              EvHTTPGet fileURL ];
        files := files w |}).
Proof.
  intros Hrun Hlisted Hparse Hscheme Hget Hstatus.
  rewrite (PrintPDFFromURL_present env ParseRequestURI _ fileURL printerName w
             (emit (EvExec "powershell" listPrintersArgs) w));
    [|now apply (mainService_listed env _ _ out)].
  rewrite Hparse.
  assert (Hs : negb (String.eqb (Scheme u) "http")
               && negb (String.eqb (Scheme u) "https") = false)
    by (destruct Hscheme as [-> | ->]; reflexivity).
  rewrite Hs. unfold wrapping.
  destruct (downloadFile_refused env fileURL
              (emit (EvExec "powershell" listPrintersArgs) w))
    as (_ & Hrefused & _).
  rewrite (Hrefused resp Hget Hstatus).
  unfold emit; cbn [trace files]. now rewrite <- app_assoc.
Qed.

Lemma PrintPDFFromURL_download_refused_witness :
  DefaultPrinterService_PrintPDFFromURL
    (sampleEnv sampleOutput
       (Ok {| StatusCode := 404; Status := "404 Not Found"; BodyCopy := None |})
       "/tmp/1.pdf" None None)
    sampleParseRequestURI
    (mainService
       (sampleEnv sampleOutput
          (Ok {| StatusCode := 404; Status := "404 Not Found";
                 BodyCopy := None |})
          "/tmp/1.pdf" None None)
       "./PDFtoPrinter.exe" "./drawer_open_command.txt")
    "http://x/doc.pdf" "HP" emptyWorld
  = (Err (Errorf_w "error al descargar el archivo: "
            (errorString
               "el servidor retornó estado no OK: 404 404 Not Found")),
     {| trace := [ EvExec "powershell" listPrintersArgs;
                   EvHTTPGet "http://x/doc.pdf" ];
        files := ∅ |}).
Proof.
  apply (PrintPDFFromURL_download_refused
           (sampleEnv sampleOutput
              (Ok {| StatusCode := 404; Status := "404 Not Found";
                     BodyCopy := None |})
              "/tmp/1.pdf" None None)
           sampleParseRequestURI "./PDFtoPrinter.exe"
           "./drawer_open_command.txt" "http://x/doc.pdf" "HP" sampleOutput
           {| Scheme := "http"; Host := EmptyString; Path := "//x/doc.pdf" |}
           {| StatusCode := 404; Status := "404 Not Found"; BodyCopy := None |}
           emptyWorld).
  - reflexivity.
  - vm_compute. reflexivity.
  - vm_compute. reflexivity.
  - left. reflexivity.
  - reflexivity.
  - discriminate.
Defined.

(** ** When the enumeration fails *)

(** X9: when the enumeration exits with an error, the three operations of
    the service return it, wrapped, and do nothing else: [GetPrinters]
    returns no record, [PrintPDFFromURL] fetches and prints nothing,
    [OpenDrawer] runs no drawer command. *)
Theorem enumeration_failure_stops_service
    (env : Env) (ParseRequestURI : string -> result URL)
    (pdfPrinterPath drawerCommandPath out : string) (err : error) (w : World) :
  exec_run env "powershell" listPrintersArgs = (out, Some err) ->
  DefaultPrinterService_GetPrinters
    (mainService env pdfPrinterPath drawerCommandPath) w
  = (Err (Errorf_w "error al listar impresoras: " (enumerationError err out)),
     emit (EvExec "powershell" listPrintersArgs) w) /\
  (forall fileURL printerName,
      DefaultPrinterService_PrintPDFFromURL env ParseRequestURI
        (mainService env pdfPrinterPath drawerCommandPath)
        fileURL printerName w
      = (Err (Errorf_w "error al verificar la impresora: "
                (Errorf_w "error al listar impresoras: "
                   (enumerationError err out))),
         emit (EvExec "powershell" listPrintersArgs) w)) /\
  (forall printerName,
      DefaultPrinterService_OpenDrawer
        (mainService env pdfPrinterPath drawerCommandPath) printerName w
      = (Err (Errorf_w "error al verificar la impresora: "
                (Errorf_w "error al listar impresoras: "
                   (enumerationError err out))),
         emit (EvExec "powershell" listPrintersArgs) w)).
Proof.
  intros Hrun.
  assert (Hlist : WindowsPrinterManager_ListPrinters env w
                  = (Err (enumerationError err out),
                     emit (EvExec "powershell" listPrintersArgs) w)).
  { unfold WindowsPrinterManager_ListPrinters, os_exec. now rewrite Hrun. }
  split; [|split].
  - unfold DefaultPrinterService_GetPrinters, bind, wrapping.
    cbn [mainService Service_PrinterManager ListPrinters WindowsPrinterManager].
    now rewrite Hlist.
  - intros fileURL printerName.
    unfold DefaultPrinterService_PrintPDFFromURL, bind. unfold wrapping at 1.
    cbn [mainService Service_PrinterManager PrinterExists WindowsPrinterManager].
    unfold WindowsPrinterManager_PrinterExists, bind, wrapping.
    now rewrite Hlist.
  - intros printerName.
    unfold DefaultPrinterService_OpenDrawer, bind. unfold wrapping at 1.
    cbn [mainService Service_PrinterManager PrinterExists WindowsPrinterManager].
    unfold WindowsPrinterManager_PrinterExists, bind, wrapping.
    now rewrite Hlist.
Qed.

Lemma enumeration_failure_stops_service_witness :
  DefaultPrinterService_GetPrinters
    (mainService
       {| exec_run := fun _ _ =>
            ("Get-Printer : access denied", Some (errorString "exit status 1"));
          http_get := fun _ => Ok okResponse;
          create_temp := Ok "/tmp/1.pdf";
          remove_err := fun _ => None;
          stderr_text := "&{}" |}
       "./PDFtoPrinter.exe" "./drawer_open_command.txt") emptyWorld
  = (Err (Errorf_w "error al listar impresoras: "
            (enumerationError (errorString "exit status 1")
               "Get-Printer : access denied")),
     emit (EvExec "powershell" listPrintersArgs) emptyWorld).
Proof.
  destruct (enumeration_failure_stops_service
              {| exec_run := fun _ _ =>
                   ("Get-Printer : access denied",
                    Some (errorString "exit status 1"));
                 http_get := fun _ => Ok okResponse;
                 create_temp := Ok "/tmp/1.pdf";
                 remove_err := fun _ => None;
                 stderr_text := "&{}" |}
              sampleParseRequestURI "./PDFtoPrinter.exe"
              "./drawer_open_command.txt" "Get-Printer : access denied"
              (errorString "exit status 1") emptyWorld eq_refl)
    as (Hget & _ & _).
  exact Hget.
Defined.

(** ** The drawer *)

(** X10: for a printer the enumeration lists, [OpenDrawer] runs the
    enumeration and then the drawer script once, for that printer; it
    succeeds when the script exits without error and otherwise returns the
    error of the script, with its output, wrapped. *)
Theorem OpenDrawer_dispatch
    (env : Env) (pdfPrinterPath drawerCommandPath printerName out : string)
    (w : World) :
  exec_run env "powershell" listPrintersArgs = (out, None) ->
  anyListed (printerLines out) printerName = true ->
  DefaultPrinterService_OpenDrawer
    (mainService env pdfPrinterPath drawerCommandPath) printerName w
  = (drawerOutcome env drawerCommandPath printerName,
     {| trace :=
          trace w
          ++ [ EvExec "powershell" listPrintersArgs;
               EvExec "powershell" (drawerArgs drawerCommandPath printerName) ];
        files := files w |}).
Proof.
  intros Hrun Hlisted.
  unfold DefaultPrinterService_OpenDrawer, bind. unfold wrapping at 1.
  rewrite (mainService_listed env _ _ out printerName w Hrun Hlisted).
  cbn [negb]. unfold wrapping, drawerOutcome.
  cbn [mainService Service_DrawerOpener DrawerOpener_OpenDrawer
       WindowsDrawerOpener_DrawerOpener].
  unfold WindowsDrawerOpener_OpenDrawer, os_exec, emit, drawerArgs.
  cbn [DrawerCommandPath trace files]. clear Hrun.
  destruct (exec_run env "powershell" _) as [o [e|]];
    rewrite <- !app_assoc; reflexivity.
Qed.

Lemma OpenDrawer_dispatch_witness :
  DefaultPrinterService_OpenDrawer
    (mainService (sampleEnv sampleOutput (Ok okResponse) "/tmp/1.pdf" None None)
       "./PDFtoPrinter.exe" "./drawer_open_command.txt") "HP" emptyWorld
  = (Ok tt,
     {| trace :=
          [ EvExec "powershell" listPrintersArgs;
            EvExec "powershell" (drawerArgs "./drawer_open_command.txt" "HP") ];
        files := ∅ |}).
Proof.
  apply (OpenDrawer_dispatch
           (sampleEnv sampleOutput (Ok okResponse) "/tmp/1.pdf" None None)
           "./PDFtoPrinter.exe" "./drawer_open_command.txt" "HP" sampleOutput
           emptyWorld).
  - reflexivity.
  - vm_compute. reflexivity.
Defined.


(** ** Configuration *)

Lemma digitValue_char (x : N) :
  (x < 10)%N -> strconv.digitValue (pretty_N_char x) = Some (Z.of_N x).
Proof.
  intros Hx.
  assert (x = 0 \/ x = 1 \/ x = 2 \/ x = 3 \/ x = 4 \/ x = 5 \/ x = 6
          \/ x = 7 \/ x = 8 \/ x = 9)%N as Hcases by lia.
  decompose [or] Hcases; subst x; reflexivity.
Qed.

(** Reading the digits [pretty_N_go] writes in front of [s]. *)
Lemma parseDigits_pretty_go (x : N) :
  exists p : Z,
    forall (acc : Z) (s : string),
      strconv.parseDigits acc (pretty_N_go x s)
      = strconv.parseDigits (acc * p + Z.of_N x)%Z s.
Proof.
  induction (N.lt_wf_0 x) as [x _ IH].
  destruct (N.eq_dec x 0%N) as [->|Hx].
  - exists 1%Z. intros acc s. rewrite pretty_N_go_0. f_equal. lia.
  - destruct (IH (x `div` 10)%N) as [p Hp]; [apply N.div_lt; lia|].
    exists (p * 10)%Z. intros acc s.
    rewrite pretty_N_go_step by lia. rewrite Hp.
    cbn [strconv.parseDigits].
    rewrite digitValue_char by (apply N.mod_lt; lia).
    f_equal. rewrite (N.div_mod x 10) at 3 by lia. lia.
Qed.

Lemma parseDigits_pretty (x : N) :
  strconv.parseDigits 0 (pretty_N_go x EmptyString) = Some (Z.of_N x).
Proof.
  destruct (parseDigits_pretty_go x) as [p Hp]. rewrite Hp.
  cbn [strconv.parseDigits]. f_equal.
Qed.

Lemma pretty_N_go_nonempty (x : N) (s : string) :
  s <> EmptyString -> pretty_N_go x s <> EmptyString.
Proof.
  revert s. induction (N.lt_wf_0 x) as [x _ IH]; intros s Hs.
  destruct (N.eq_dec x 0%N) as [->|Hx]; [now rewrite pretty_N_go_0|].
  rewrite pretty_N_go_step by lia. apply IH; [apply N.div_lt; lia|discriminate].
Qed.

Lemma pretty_pos_digits (p : positive) :
  exists c r,
    pretty_N_go (N.pos p) EmptyString = String c r /\
    Ascii.eqb c "-" = false /\ Ascii.eqb c "+" = false.
Proof.
  pose proof (parseDigits_pretty (N.pos p)) as Hparse.
  destruct (pretty_N_go (N.pos p) EmptyString) as [|c r] eqn:Heq.
  - rewrite pretty_N_go_step in Heq by lia.
    now apply pretty_N_go_nonempty in Heq.
  - exists c, r. split; [reflexivity|]. cbn [strconv.parseDigits] in Hparse.
    destruct (strconv.digitValue c) eqn:Hc; [|discriminate].
    split.
    + destruct (Ascii.eqb_spec c "-") as [->|]; [discriminate|reflexivity].
    + destruct (Ascii.eqb_spec c "+") as [->|]; [discriminate|reflexivity].
Qed.

(** [Atoi] reads back the decimal text of an [int]. *)
Lemma Atoi_pretty (n : Z) :
  (- 2 ^ 63 <= n < 2 ^ 63)%Z -> strconv.Atoi (pretty n) = Some n.
Proof.
  intros Hrange. destruct n as [|p|p].
  - reflexivity.
  - change (pretty (Z.pos p)) with (pretty_N_go (N.pos p) EmptyString).
    destruct (pretty_pos_digits p) as (c & r & Heq & Hminus & Hplus).
    pose proof (parseDigits_pretty (N.pos p)) as Hparse.
    rewrite Heq in *. unfold strconv.Atoi. rewrite Hminus, Hplus.
    cbn [orb]. rewrite Hparse.
    change (Z.of_N (N.pos p)) with (Z.pos p).
    destruct (Z.leb_spec (- 2 ^ 63) (Z.pos p)); [|lia].
    destruct (Z.ltb_spec (Z.pos p) (2 ^ 63)); [reflexivity|lia].
  - change (pretty (Z.neg p))
      with (String "-" (pretty_N_go (N.pos p) EmptyString)).
    destruct (pretty_pos_digits p) as (c & r & Heq & _ & _).
    pose proof (parseDigits_pretty (N.pos p)) as Hparse.
    unfold strconv.Atoi. cbn [Ascii.eqb Bool.eqb orb]. rewrite Heq in *.
    rewrite Hparse. change (- Z.of_N (N.pos p))%Z with (Z.neg p).
    destruct (Z.leb_spec (- 2 ^ 63) (Z.neg p)); [|lia].
    destruct (Z.ltb_spec (Z.neg p) (2 ^ 63)); [reflexivity|lia].
Qed.

(** X11: a variable that holds the decimal text of an [int] is read back
    as that number; for [PORT], the address the server listens on is a
    colon followed by the same text. *)
Theorem LoadConfig_reads_port (LookupEnv : string -> option string)
    (key : string) (defaultVal n : Z) :
  (- 2 ^ 63 <= n < 2 ^ 63)%Z ->
  (LookupEnv key = Some (pretty n) ->
   getEnvAsInt LookupEnv key defaultVal = n) /\
  (LookupEnv "PORT" = Some (pretty n) ->
   Port (LoadConfig LookupEnv) = n /\
   serverAddr (LoadConfig LookupEnv) = ":" +:+ pretty n).
Proof.
  intros Hrange. split.
  - intros Hkey. unfold getEnvAsInt. now rewrite Hkey, Atoi_pretty.
  - intros Hport.
    assert (Hp : Port (LoadConfig LookupEnv) = n).
    { cbn [LoadConfig Port]. unfold getEnvAsInt.
      now rewrite Hport, Atoi_pretty. }
    split; [exact Hp|]. unfold serverAddr. now rewrite Hp.
Qed.

Lemma LoadConfig_reads_port_witness :
  Port (LoadConfig (fun key => if String.eqb key "PORT" then Some "9443"
                               else None)) = 9443%Z /\
  serverAddr (LoadConfig (fun key => if String.eqb key "PORT" then Some "9443"
                                     else None)) = ":9443".
Proof.
  destruct (LoadConfig_reads_port
              (fun key => if String.eqb key "PORT" then Some "9443" else None)
              "PORT" 8080 9443) as [_ Hport]; [lia|].
  apply Hport. reflexivity.
Defined.

Lemma parseDigits_None (s : string) (c : ascii) (i : nat) (acc : Z) :
  strconv.digitValue c = None ->
  strings.IndexByte s c = Some i ->
  strconv.parseDigits acc s = None.
Proof.
  intros Hc. revert i acc. induction s as [|x s IH]; intros i acc; cbn;
    [discriminate|].
  destruct (Ascii.eqb_spec x c) as [->|Hne].
  - intros _. now rewrite Hc.
  - destruct (strings.IndexByte s c) as [j|] eqn:Hj; [|discriminate].
    intros _. destruct (strconv.digitValue x); [|reflexivity]. now apply (IH j).
Qed.

Lemma Atoi_None (s : string) (c : ascii) (i : nat) :
  strconv.digitValue c = None ->
  Ascii.eqb c "-" = false -> Ascii.eqb c "+" = false ->
  strings.IndexByte s c = Some i ->
  strconv.Atoi s = None.
Proof.
  intros Hc Hminus Hplus Hi. destruct s as [|x s]; [reflexivity|].
  unfold strconv.Atoi.
  destruct (Ascii.eqb x "-" || Ascii.eqb x "+") eqn:Hsign.
  - assert (Hx : Ascii.eqb x c = false).
    { apply orb_true_iff in Hsign as [H|H]; apply Ascii.eqb_eq in H as ->.
      - now rewrite Ascii.eqb_sym.
      - now rewrite Ascii.eqb_sym. }
    cbn in Hi. rewrite Hx in Hi.
    destruct (strings.IndexByte s c) as [j|] eqn:Hj; [|discriminate].
    destruct s as [|y s]; [reflexivity|].
    now rewrite (parseDigits_None _ c j 0 Hc Hj).
  - now rewrite (parseDigits_None _ c i 0 Hc Hi).
Qed.

(** X12: [getEnvAsInt] gives the default when the variable is not set, and
    also, without a word, when it is set to the empty text or to a text that
    holds a byte that is neither a digit nor a sign: a blank, for one, so
    the value is not trimmed before it is read. *)
Theorem getEnvAsInt_falls_back (LookupEnv : string -> option string)
    (key : string) (defaultVal : Z) :
  (LookupEnv key = None -> getEnvAsInt LookupEnv key defaultVal = defaultVal) /\
  (LookupEnv key = Some EmptyString ->
   getEnvAsInt LookupEnv key defaultVal = defaultVal) /\
  (forall valStr c i,
      LookupEnv key = Some valStr ->
      strconv.digitValue c = None ->
      c <> "-"%char -> c <> "+"%char ->
      strings.IndexByte valStr c = Some i ->
      getEnvAsInt LookupEnv key defaultVal = defaultVal).
Proof.
  unfold getEnvAsInt. split; [|split].
  - now intros ->.
  - now intros ->.
  - intros valStr c i -> Hc Hminus Hplus Hi.
    rewrite (Atoi_None valStr c i Hc); [reflexivity| | |exact Hi].
    + now apply Ascii.eqb_neq.
    + now apply Ascii.eqb_neq.
Qed.

Lemma getEnvAsInt_falls_back_witness :
  getEnvAsInt (fun key => if String.eqb key "PORT" then Some " 9443" else None)
    "PORT" 8080 = 8080%Z.
Proof.
  destruct (getEnvAsInt_falls_back
              (fun key => if String.eqb key "PORT" then Some " 9443" else None)
              "PORT" 8080) as (_ & _ & Hbyte).
  apply (Hbyte " 9443" " "%char 0); [reflexivity|reflexivity| | |reflexivity];
    discriminate.
Defined.

(** X13: the allowed origins [LoadConfig] returns are never empty texts and
    have no white space at either end.  When [ALLOWED_ORIGINS] is not set
    the list is the single origin [*]; when it is set to blanks and commas
    only, the list is empty, not the default. *)
Theorem LoadConfig_AllowedOrigins (LookupEnv : string -> option string) :
  (forall origin,
      origin ∈ AllowedOrigins (LoadConfig LookupEnv) ->
      origin <> EmptyString /\ strings.TrimSpace origin = origin) /\
  (LookupEnv "ALLOWED_ORIGINS" = None ->
   AllowedOrigins (LoadConfig LookupEnv) = ["*"]) /\
  (forall val,
      LookupEnv "ALLOWED_ORIGINS" = Some val ->
      Forall (fun part => strings.TrimSpace part = EmptyString)
        (strings.Split val ",") ->
      AllowedOrigins (LoadConfig LookupEnv) = []).
Proof.
  cbn [LoadConfig AllowedOrigins]. unfold getEnvAsSlice. split; [|split].
  - intros origin Hin.
    destruct (LookupEnv "ALLOWED_ORIGINS") as [val|];
      apply splitAndTrim_pieces in Hin as (Hne & Htrim & _); now split.
  - now intros ->.
  - intros val -> Hblank.
    destruct (splitAndTrim_pieces val ",") as [-> _].
    induction Hblank as [|part rest Hpart _ IH]; [reflexivity|].
    cbn [map]. rewrite filter_cons, Hpart.
    rewrite decide_False by (intros H; now apply H). exact IH.
Qed.

Lemma LoadConfig_AllowedOrigins_witness :
  AllowedOrigins
    (LoadConfig (fun key => if String.eqb key "ALLOWED_ORIGINS"
                            then Some " , " else None)) = [].
Proof.
  destruct (LoadConfig_AllowedOrigins
              (fun key => if String.eqb key "ALLOWED_ORIGINS"
                          then Some " , " else None)) as (_ & _ & Hblank).
  apply (Hblank " , "); [reflexivity|].
  repeat constructor.
Defined.


(** ** The handlers *)

Lemma reply_status_WriteErrorJSON status message err :
  reply_status (WriteErrorJSON status message err) = status.
Proof. now destruct err. Qed.

Lemma eqb_empty_false (s : string) :
  String.eqb s EmptyString = false <-> s <> EmptyString.
Proof. apply String.eqb_neq. Qed.

(** X14: [PrintHandler] answers 200 exactly when the request is a POST
    whose body decodes, with both fields filled in, and [PrintPDFFromURL]
    of the service returned without error. *)
Theorem PrintHandler_ok_iff (h : Handlers) (r : HTTPRequest) (w : World) :
  reply_status (fst (PrintHandler h r w)) = 200%Z <->
  Method r = "POST" /\
  exists req,
    Body r = Ok req /\
    Req_URL req <> EmptyString /\ Req_Printer req <> EmptyString /\
    fst (PrintPDFFromURL (Service h) (Req_URL req) (Req_Printer req)
           (Logger_Info "Received request: /print" w)) = Ok tt.
Proof.
  unfold PrintHandler. cbv zeta.
  destruct (String.eqb_spec (Method r) "POST") as [Hpost|Hother]; cbn [negb].
  - destruct (Body r) as [req|err] eqn:Hbody.
    + destruct (String.eqb_spec (Req_URL req) EmptyString) as [Hurl|Hurl];
        cbn [orb].
      * cbn [fst]. rewrite reply_status_WriteErrorJSON. split; [discriminate|].
        intros (_ & req' & [= <-] & Hne & _). now elim Hne.
      * destruct (String.eqb_spec (Req_Printer req) EmptyString)
          as [Hprinter|Hprinter].
        -- cbn [fst]. rewrite reply_status_WriteErrorJSON.
           split; [discriminate|].
           intros (_ & req' & [= <-] & _ & Hne & _). now elim Hne.
        -- destruct (PrintPDFFromURL (Service h) _ _ _) as [[[]|err] w1]
             eqn:Hsvc; cbn [fst].
           ++ split; [|reflexivity]. intros _. split; [exact Hpost|].
              exists req. split; [reflexivity|]. split; [exact Hurl|].
              split; [exact Hprinter|]. now rewrite Hsvc.
           ++ rewrite reply_status_WriteErrorJSON. split; [discriminate|].
              intros (_ & req' & [= <-] & _ & _ & Hok).
              rewrite Hsvc in Hok. discriminate.
    + cbn [fst]. rewrite reply_status_WriteErrorJSON. split; [discriminate|].
      intros (_ & req' & Hreq & _). discriminate.
  - cbn [fst]. rewrite reply_status_WriteErrorJSON. split; [discriminate|].
    now intros [Hpost _].
Qed.

(** X15: [OpenDrawerHandler] answers 200 exactly when the request is a POST
    whose body decodes, with the printer filled in, and [OpenDrawer] of the
    service returned without error. *)
Theorem OpenDrawerHandler_ok_iff (h : Handlers) (r : DrawerHTTPRequest)
    (w : World) :
  reply_status (fst (OpenDrawerHandler h r w)) = 200%Z <->
  Drawer_Method r = "POST" /\
  exists req,
    Drawer_Body r = Ok req /\
    Drawer_Printer req <> EmptyString /\
    fst (OpenDrawer (Service h) (Drawer_Printer req)
           (Logger_Info "Received request: /open-box" w)) = Ok tt.
Proof.
  unfold OpenDrawerHandler. cbv zeta.
  destruct (String.eqb_spec (Drawer_Method r) "POST") as [Hpost|Hother];
    cbn [negb].
  - destruct (Drawer_Body r) as [req|err] eqn:Hbody.
    + destruct (String.eqb_spec (Drawer_Printer req) EmptyString)
        as [Hprinter|Hprinter].
      * cbn [fst]. rewrite reply_status_WriteErrorJSON. split; [discriminate|].
        intros (_ & req' & [= <-] & Hne & _). now elim Hne.
      * destruct (OpenDrawer (Service h) _ _) as [[[]|err] w1] eqn:Hsvc;
          cbn [fst].
        -- split; [|reflexivity]. intros _. split; [exact Hpost|].
           exists req. split; [reflexivity|]. split; [exact Hprinter|].
           now rewrite Hsvc.
        -- rewrite reply_status_WriteErrorJSON. split; [discriminate|].
           intros (_ & req' & [= <-] & _ & Hok).
           rewrite Hsvc in Hok. discriminate.
    + cbn [fst]. rewrite reply_status_WriteErrorJSON. split; [discriminate|].
      intros (_ & req' & Hreq & _). discriminate.
  - cbn [fst]. rewrite reply_status_WriteErrorJSON. split; [discriminate|].
    now intros [Hpost _].
Qed.

(** X16: a request that is not a POST is answered 405, and a POST whose
    body does not decode is answered 400 with the decoder's error as
    details, by both handlers and whatever the service is: the service is
    not called, and the two log lines are all that happens. *)
Theorem handlers_reject_before_service (h : Handlers) (w : World) :
  (forall r,
      Method r <> "POST" ->
      PrintHandler h r w
      = (WriteErrorJSON 405 "Método HTTP no permitido" None,
         {| trace := trace w
                     ++ [ EvLog "[INFO] Received request: /print";
                          EvLog ("[WARN] Método HTTP no permitido: "
                                 +:+ Method r) ];
            files := files w |})) /\
  (forall r err,
      Method r = "POST" -> Body r = Err err ->
      PrintHandler h r w
      = (WriteErrorJSON 400 "Solicitud JSON inválida" (Some err),
         {| trace := trace w
                     ++ [ EvLog "[INFO] Received request: /print";
                          EvLog ("[WARN] Error al decodificar JSON: "
                                 +:+ Error err) ];
            files := files w |})) /\
  (forall r,
      Drawer_Method r <> "POST" ->
      OpenDrawerHandler h r w
      = (WriteErrorJSON 405 "Método HTTP no permitido" None,
         {| trace := trace w
                     ++ [ EvLog "[INFO] Received request: /open-box";
                          EvLog ("[WARN] Método HTTP no permitido: "
                                 +:+ Drawer_Method r) ];
            files := files w |})) /\
  (forall r err,
      Drawer_Method r = "POST" -> Drawer_Body r = Err err ->
      OpenDrawerHandler h r w
      = (WriteErrorJSON 400 "Solicitud JSON inválida" (Some err),
         {| trace := trace w
                     ++ [ EvLog "[INFO] Received request: /open-box";
                          EvLog ("[WARN] Error al decodificar JSON: "
                                 +:+ Error err) ];
            files := files w |})).
Proof.
  split; [|split; [|split]].
  - intros r Hother. unfold PrintHandler.
    destruct (String.eqb_spec (Method r) "POST"); [done|]. cbn [negb].
    unfold Logger_Warnf, Logger_Warn, Logger_Info, emit; cbn [trace files].
    now rewrite <- app_assoc.
  - intros r err Hpost Hbody. unfold PrintHandler. rewrite Hpost, Hbody.
    cbn [String.eqb Ascii.eqb Bool.eqb negb andb].
    unfold Logger_Warnf, Logger_Warn, Logger_Info, emit; cbn [trace files].
    now rewrite <- app_assoc.
  - intros r Hother. unfold OpenDrawerHandler.
    destruct (String.eqb_spec (Drawer_Method r) "POST"); [done|]. cbn [negb].
    unfold Logger_Warnf, Logger_Warn, Logger_Info, emit; cbn [trace files].
    now rewrite <- app_assoc.
  - intros r err Hpost Hbody. unfold OpenDrawerHandler. rewrite Hpost, Hbody.
    cbn [String.eqb Ascii.eqb Bool.eqb negb andb].
    unfold Logger_Warnf, Logger_Warn, Logger_Info, emit; cbn [trace files].
    now rewrite <- app_assoc.
Qed.

Lemma handlers_reject_before_service_witness :
  PrintHandler
    (mainHandlers (sampleEnv sampleOutput (Ok okResponse) "/tmp/1.pdf" None None)
       sampleParseRequestURI "./PDFtoPrinter.exe" "./drawer_open_command.txt")
    {| Method := "GET";
       Body := Ok {| Req_URL := "http://x/doc.pdf"; Req_Printer := "HP" |} |}
    emptyWorld
  = (WriteErrorJSON 405 "Método HTTP no permitido" None,
     {| trace := [ EvLog "[INFO] Received request: /print";
                   EvLog "[WARN] Método HTTP no permitido: GET" ];
        files := ∅ |}).
Proof.
  destruct (handlers_reject_before_service
              (mainHandlers
                 (sampleEnv sampleOutput (Ok okResponse) "/tmp/1.pdf" None None)
                 sampleParseRequestURI "./PDFtoPrinter.exe"
                 "./drawer_open_command.txt") emptyWorld) as (Hmethod & _).
  apply (Hmethod {| Method := "GET";
                    Body := Ok {| Req_URL := "http://x/doc.pdf";
                                  Req_Printer := "HP" |} |}).
  discriminate.
Defined.

(** A POST to [/open-box] for a name that the substring test of
    [PrinterExists] finds in no line of the enumeration is answered 500 with
    the error [Error al abrir el cajón] and, as details, that the printer
    does not exist; the enumeration is the only process started, between the
    two log lines. *)
Lemma OpenDrawerHandler_check_fails
    (env : Env) (ParseRequestURI : string -> result URL)
    (pdfPrinterPath drawerCommandPath out : string)
    (req : OpenDrawerRequest) (w : World) :
  Drawer_Printer req <> EmptyString ->
  exec_run env "powershell" listPrintersArgs = (out, None) ->
  anyListed (printerLines out) (Drawer_Printer req) = false ->
  exists reply,
    OpenDrawerHandler
      (mainHandlers env ParseRequestURI pdfPrinterPath drawerCommandPath)
      {| Drawer_Method := "POST"; Drawer_Body := Ok req |} w
    = (reply,
       {| trace :=
            trace w
            ++ [ EvLog "[INFO] Received request: /open-box";
                 EvExec "powershell" listPrintersArgs;
                 EvLog ("[ERROR] Error al abrir el cajón: la impresora '"
                        +:+ Drawer_Printer req +:+ "' no existe") ];
          files := files w |}) /\
    reply_status reply = 500%Z /\
    reply_body reply !! "error" = Some "Error al abrir el cajón" /\
    reply_body reply !! "details"
    = Some ("la impresora '" +:+ Drawer_Printer req +:+ "' no existe").
Proof.
  intros Hprinter Hrun Habsent.
  unfold OpenDrawerHandler. cbn [Drawer_Method Drawer_Body].
  apply eqb_empty_false in Hprinter. rewrite Hprinter.
  cbn [String.eqb Ascii.eqb Bool.eqb negb andb].
  cbn [mainHandlers Service OpenDrawer DefaultPrinterService_PrinterService].
  rewrite (OpenDrawer_absent _ _ _
             (emit (EvExec "powershell" listPrintersArgs)
                (Logger_Info "Received request: /open-box" w))).
  - eexists. split.
    { f_equal.
      unfold Logger_Errorf, Logger_Error, Logger_Info, emit, Error;
        cbn [trace files]. now rewrite <- !app_assoc. }
    split; [reflexivity|]. split.
    + cbn [WriteErrorJSON WriteJSON reply_body].
      rewrite lookup_insert_ne by discriminate. apply lookup_singleton_eq.
    + cbn [WriteErrorJSON WriteJSON reply_body Error]. apply lookup_insert_eq.
  - cbn [mainService Service_PrinterManager PrinterExists WindowsPrinterManager].
    now rewrite (PrinterExists_run env out _ _ Hrun), Habsent.
Qed.



(** ** The records of the parser *)

Lemma Cut_Some (s : string) sep (before after : string) :
  strings.Cut s sep = Some (before, after) ->
  s = before +:+ String sep after /\ strings.IndexByte before sep = None.
Proof.
  revert before. induction s as [|x s IH]; intros before; cbn; [discriminate|].
  destruct (Ascii.eqb x sep) eqn:Hx.
  - apply Ascii.eqb_eq in Hx as ->. intros [= <- <-]. now split.
  - destruct (strings.Cut s sep) as [[b0 a0]|]; [|discriminate].
    intros [= <- <-]. destruct (IH b0 eq_refl) as [-> Hb].
    split; [reflexivity|]. cbn. now rewrite Hx, Hb.
Qed.

Lemma Split_pieces_clean (s : string) sep :
  Forall (fun p => strings.IndexByte p sep = None) (strings.Split s sep).
Proof.
  induction s as [|x s IH]; [now repeat constructor|].
  cbn [strings.Split]. destruct (Ascii.eqb x sep) eqn:Hx.
  - now constructor.
  - destruct (strings.Split s sep) as [|p ps]; [now repeat constructor; cbn; rewrite Hx|].
    apply Forall_cons in IH as [Hp Hps]. constructor; [|exact Hps].
    cbn. now rewrite Hx, Hp.
Qed.

Lemma SplitN_two_inv (prop k v : string) :
  strings.SplitN prop "=" 2 = [k; v] ->
  prop = propertyText (k, v) /\ strings.IndexByte k "=" = None.
Proof.
  cbn. destruct (strings.Cut prop "=") as [[b a]|] eqn:Hcut; [|discriminate].
  intros [= <- <-]. now apply Cut_Some in Hcut.
Qed.

Lemma parseProperties_entries properties (m0 m : gmap string string) :
  parseProperties properties m0 = Ok m ->
  (forall k, is_Some (m0 !! k) -> is_Some (m !! k)) /\
  (forall k v, m !! k = Some v ->
               m0 !! k = Some v \/
               (propertyText (k, v) ∈ properties /\
                strings.IndexByte k "=" = None)).
Proof.
  revert m0. induction properties as [|prop rest IH]; intros m0; cbn.
  - intros [= ->]. split; [auto|]. intros k v Hk. now left.
  - destruct (strings.Cut prop "=") as [[k0 v0]|] eqn:Hcut; [|discriminate].
    intros Hrest. destruct (IH _ Hrest) as [Hgrow Hfrom].
    apply Cut_Some in Hcut as [-> Hk0]. split.
    + intros k Hk. apply Hgrow. destruct (decide (k0 = k)) as [->|Hne].
      * rewrite lookup_insert_eq. eauto.
      * now rewrite lookup_insert_ne.
    + intros k v Hk. destruct (Hfrom k v Hk) as [Hins|[Hin Hclean]].
      * destruct (decide (k0 = k)) as [->|Hne].
        -- rewrite lookup_insert_eq in Hins. injection Hins as ->.
           right. split; [left|exact Hk0].
        -- rewrite lookup_insert_ne in Hins by exact Hne. now left.
      * right. split; [now right|exact Hclean].
Qed.

(** X18: every entry of a record [parsePrinterDetails] returns is one of
    the [key=value] tokens of the line, cut at its first ['=']: the key
    holds no ['='] and no [';'], the value no [';'].  The record is never
    empty. *)
Theorem parsePrinterDetails_entries (details : string)
    (m : gmap string string) :
  parsePrinterDetails details = Ok m ->
  m <> ∅ /\
  forall k v,
    m !! k = Some v ->
    propertyText (k, v) ∈ strings.Split details ";" /\ cleanPair (k, v).
Proof.
  intros Hparse. unfold parsePrinterDetails in Hparse.
  destruct (parseProperties_entries _ _ _ Hparse) as [Hgrow Hfrom]. split.
  - destruct (strings.Split details ";") as [|prop rest] eqn:Hsplit;
      [now apply Split_not_nil in Hsplit|].
    cbn in Hparse.
    destruct (strings.Cut prop "=") as [[k0 v0]|]; [|discriminate].
    destruct (parseProperties_entries _ _ _ Hparse) as [Hgrow' _].
    destruct (Hgrow' k0) as [v Hv]; [rewrite lookup_insert_eq; eauto|].
    intros ->. now rewrite lookup_empty in Hv.
  - intros k v Hk. destruct (Hfrom k v Hk) as [Hempty|[Hin Hclean]].
    { now rewrite lookup_empty in Hempty. }
    split; [exact Hin|].
    pose proof (Split_pieces_clean details ";") as Hpieces.
    rewrite Forall_forall in Hpieces. specialize (Hpieces _ Hin).
    unfold propertyText in Hpieces; cbn [fst snd] in Hpieces.
    apply IndexByte_app_None_inv in Hpieces as [Hk1 Hv1].
    change ("=" +:+ v) with (String "=" v) in Hv1.
    apply IndexByte_String_None in Hv1 as [_ Hv1].
    split; [exact Hclean|]. now split.
Qed.

Lemma parsePrinterDetails_entries_witness :
  (<["Opts" := "a=b"]> (<["Name" := "HP"]> ∅) : gmap string string) <> ∅ /\
  forall k v,
    (<["Opts" := "a=b"]> (<["Name" := "HP"]> ∅) : gmap string string) !! k
    = Some v ->
    propertyText (k, v) ∈ strings.Split "Name=HP;Opts=a=b" ";" /\
    cleanPair (k, v).
Proof.
  apply (parsePrinterDetails_entries "Name=HP;Opts=a=b").
  vm_compute. reflexivity.
Defined.

(** X19: a line with an empty token is rejected as a whole: the empty
    line, a line that ends or starts with [';'], and a line with two [';']
    in a row.  A line that starts with [';'] is rejected with the error of
    the empty token. *)
Theorem parsePrinterDetails_empty_token :
  (exists e, parsePrinterDetails EmptyString = Err e) /\
  (forall s, exists e, parsePrinterDetails (s +:+ ";") = Err e) /\
  (forall s,
      parsePrinterDetails (";" +:+ s)
      = Err (errorString "formato de propiedad inválido: ")) /\
  (forall a b, exists e, parsePrinterDetails (a +:+ ";;" +:+ b) = Err e).
Proof.
  assert (Hempty : forall details,
             EmptyString ∈ strings.Split details ";" ->
             exists e, parsePrinterDetails details = Err e).
  { intros details Hin.
    destruct (parseProperties_malformed (strings.Split details ";") ∅)
      as (bad & _ & _ & Heq); [|eauto].
    apply Exists_exists. now exists EmptyString. }
  split; [|split; [|split]].
  - apply Hempty. left.
  - intros s. apply Hempty.
    change (s +:+ ";") with (s +:+ String ";" EmptyString).
    rewrite Split_app_sep. apply elem_of_app. right. left.
  - intros s. change (";" +:+ s) with (String ";" s).
    unfold parsePrinterDetails. reflexivity.
  - intros a b. apply Hempty.
    change (a +:+ ";;" +:+ b) with (a +:+ String ";" (String ";" b)).
    rewrite Split_app_sep. apply elem_of_app. right. cbn. left.
Qed.


(** ** The deferred removal *)

(** X20: whatever implements the printer manager and the document printer,
    once [downloadFile] has returned a file and [os.Remove] works on it, the
    file is not on disk when [PrintPDFFromURL] returns, whether printing
    succeeded or failed. *)
Theorem PrintPDFFromURL_temp_file_removed
    (env : Env) (ParseRequestURI : string -> result URL)
    (d : DefaultPrinterService) (fileURL printerName filePath : string)
    (u : URL) (w w1 w2 : World) :
  PrinterExists (Service_PrinterManager d) printerName w = (Ok true, w1) ->
  ParseRequestURI fileURL = Ok u ->
  Scheme u = "http" \/ Scheme u = "https" ->
  downloadFile env fileURL w1 = (Ok filePath, w2) ->
  remove_err env filePath = None ->
  (filePath ∉ files (snd (DefaultPrinterService_PrintPDFFromURL env
                            ParseRequestURI d fileURL printerName w))) /\
  exists before,
    trace (snd (DefaultPrinterService_PrintPDFFromURL env
                  ParseRequestURI d fileURL printerName w))
    = before ++ [EvRemove filePath].
Proof.
  intros Hcheck Hparse Hscheme Hload Hrm.
  rewrite (PrintPDFFromURL_downloaded _ _ _ _ _ _ _ _ _ _
             Hcheck Hparse Hscheme Hload).
  cbn [snd]. rewrite (removeTemp_ok _ _ _ Hrm). cbn [files trace]. split.
  - intros [_ Hout]%elem_of_difference. apply Hout. now apply elem_of_singleton.
  - eauto.
Qed.

Lemma PrintPDFFromURL_temp_file_removed_witness :
  "/tmp/1.pdf"
  ∉ files (snd (DefaultPrinterService_PrintPDFFromURL
                  (sampleEnv sampleOutput (Ok okResponse) "/tmp/1.pdf"
                     (Some (errorString "exit status 1")) None)
                  sampleParseRequestURI
                  (mainService
                     (sampleEnv sampleOutput (Ok okResponse) "/tmp/1.pdf"
                        (Some (errorString "exit status 1")) None)
                     "./PDFtoPrinter.exe" "./drawer_open_command.txt")
                  "http://x/doc.pdf" "HP" emptyWorld)).
Proof.
  eapply proj1.
  apply (PrintPDFFromURL_temp_file_removed
           (sampleEnv sampleOutput (Ok okResponse) "/tmp/1.pdf"
              (Some (errorString "exit status 1")) None)
           sampleParseRequestURI _ "http://x/doc.pdf" "HP" "/tmp/1.pdf"
           {| Scheme := "http"; Host := EmptyString; Path := "//x/doc.pdf" |}
           emptyWorld
           (emit (EvExec "powershell" listPrintersArgs) emptyWorld)
           {| trace := [ EvExec "powershell" listPrintersArgs;
                         EvHTTPGet "http://x/doc.pdf";
                         EvCreateTemp "/tmp/1.pdf";
                         EvCopy "/tmp/1.pdf" ];
              files := {["/tmp/1.pdf"]} |}).
  - vm_compute. reflexivity.
  - vm_compute. reflexivity.
  - left. reflexivity.
  - vm_compute. reflexivity.
  - reflexivity.
Defined.


Lemma PrintHandler_ok_iff_witness :
  reply_status
    (fst (PrintHandler
            (mainHandlers
               (sampleEnv sampleOutput (Ok okResponse) "/tmp/1.pdf" None None)
               sampleParseRequestURI "./PDFtoPrinter.exe"
               "./drawer_open_command.txt")
            {| Method := "POST";
               Body := Ok {| Req_URL := "http://x/doc.pdf";
                             Req_Printer := "HP" |} |}
            emptyWorld)) = 200%Z.
Proof.
  apply (proj2 (PrintHandler_ok_iff _ _ _)).
  split; [reflexivity|].
  exists {| Req_URL := "http://x/doc.pdf"; Req_Printer := "HP" |}.
  split; [reflexivity|]. split; [discriminate|]. split; [discriminate|].
  vm_compute. reflexivity.
Defined.

Lemma OpenDrawerHandler_ok_iff_witness :
  reply_status
    (fst (OpenDrawerHandler
            (mainHandlers
               (sampleEnv sampleOutput (Ok okResponse) "/tmp/1.pdf" None None)
               sampleParseRequestURI "./PDFtoPrinter.exe"
               "./drawer_open_command.txt")
            {| Drawer_Method := "POST";
               Drawer_Body := Ok {| Drawer_Printer := "HP" |} |}
            emptyWorld)) = 200%Z.
Proof.
  apply (proj2 (OpenDrawerHandler_ok_iff _ _ _)).
  split; [reflexivity|].
  exists {| Drawer_Printer := "HP" |}.
  split; [reflexivity|]. split; [discriminate|].
  vm_compute. reflexivity.
Defined.


(** ** The existence check in front of the print and the drawer *)

(** C3: the run of [PrintPDFFromURL] on an enumeration with one printer,
    [HP], whose driver is called [HP2], for the printer name [HP2].
    [GetPrinters] has no record named [HP2], so no such printer exists; yet
    the call does not stop at the existence check: the file is fetched, the
    print tool is run on it for [HP2], and the call returns no error.  The
    check passes because the line holds the text [Name=HP2;] inside
    [DriverName=HP2;]. *)
Theorem PrintPDFFromURL_fetches_for_driver_name :
  (exists records,
      fst (DefaultPrinterService_GetPrinters
             (mainService
                (sampleEnv sampleOutput (Ok okResponse) "/tmp/1.pdf" None None)
                "./PDFtoPrinter.exe" "./drawer_open_command.txt")
             emptyWorld) = Ok records /\
      recordNamed "HP2" records = false) /\
  DefaultPrinterService_PrintPDFFromURL
    (sampleEnv sampleOutput (Ok okResponse) "/tmp/1.pdf" None None)
    sampleParseRequestURI
    (mainService
       (sampleEnv sampleOutput (Ok okResponse) "/tmp/1.pdf" None None)
       "./PDFtoPrinter.exe" "./drawer_open_command.txt")
    "http://x/doc.pdf" "HP2" emptyWorld
  = (Ok tt,
     {| trace :=
          [ EvExec "powershell" listPrintersArgs;
            EvHTTPGet "http://x/doc.pdf";
            EvCreateTemp "/tmp/1.pdf";
            EvCopy "/tmp/1.pdf";
            EvLog "[INFO] Archivo descargado: /tmp/1.pdf";
            EvStdout ("Imprimiendo archivo /tmp/1.pdf en impresora HP2"
                      +:+ String "010" EmptyString);
            EvExec "./PDFtoPrinter.exe" ["/tmp/1.pdf"; "HP2"];
            EvRemove "/tmp/1.pdf" ];
        files := ∅ |}).
Proof.
  split.
  - eexists. split; vm_compute; reflexivity.
  - vm_compute. reflexivity.
Qed.

(** C7: the run of [OpenDrawer] on the same enumeration for the printer name
    [HP2].  [GetPrinters] has no record named [HP2], so no such printer
    exists; yet the call does not stop at the existence check: the drawer
    command is run for [HP2] and the call returns no error. *)
Theorem OpenDrawer_runs_for_driver_name :
  (exists records,
      fst (DefaultPrinterService_GetPrinters
             (mainService
                (sampleEnv sampleOutput (Ok okResponse) "/tmp/1.pdf" None None)
                "./PDFtoPrinter.exe" "./drawer_open_command.txt")
             emptyWorld) = Ok records /\
      recordNamed "HP2" records = false) /\
  DefaultPrinterService_OpenDrawer
    (mainService
       (sampleEnv sampleOutput (Ok okResponse) "/tmp/1.pdf" None None)
       "./PDFtoPrinter.exe" "./drawer_open_command.txt")
    "HP2" emptyWorld
  = (Ok tt,
     {| trace :=
          [ EvExec "powershell" listPrintersArgs;
            EvExec "powershell"
              (drawerArgs "./drawer_open_command.txt" "HP2") ];
        files := ∅ |}).
Proof.
  split.
  - eexists. split; vm_compute; reflexivity.
  - vm_compute. reflexivity.
Qed.

(** ** The drawer request for an unknown printer *)

(** X17: when the enumeration prints one line per printer in the format of
    the command and no field holds [';'] or ['='], a POST to [/open-box]
    whose printer name is not empty, holds neither [';'] nor ['='] and is
    not the [Name], the [DriverName] or the [PortName] of any printer is
    answered 500 with the error [Error al abrir el cajón] and, as details,
    that the printer does not exist; the enumeration is the only process
    started, between the two log lines. *)
Theorem OpenDrawerHandler_unknown_printer
    (env : Env) (ParseRequestURI : string -> result URL)
    (pdfPrinterPath drawerCommandPath out : string) (rows : list PrinterRow)
    (req : OpenDrawerRequest) (w : World) :
  Drawer_Printer req <> EmptyString ->
  noSeparator (Drawer_Printer req) ->
  exec_run env "powershell" listPrintersArgs = (out, None) ->
  printerLines out = map rowLine rows ->
  Forall plainRow rows ->
  (forall r, r ∈ rows ->
             Row_Name r <> Drawer_Printer req /\
             Row_DriverName r <> Drawer_Printer req /\
             Row_PortName r <> Drawer_Printer req) ->
  exists reply,
    OpenDrawerHandler
      (mainHandlers env ParseRequestURI pdfPrinterPath drawerCommandPath)
      {| Drawer_Method := "POST"; Drawer_Body := Ok req |} w
    = (reply,
       {| trace :=
            trace w
            ++ [ EvLog "[INFO] Received request: /open-box";
                 EvExec "powershell" listPrintersArgs;
                 EvLog ("[ERROR] Error al abrir el cajón: la impresora '"
                        +:+ Drawer_Printer req +:+ "' no existe") ];
          files := files w |}) /\
    reply_status reply = 500%Z /\
    reply_body reply !! "error" = Some "Error al abrir el cajón" /\
    reply_body reply !! "details"
    = Some ("la impresora '" +:+ Drawer_Printer req +:+ "' no existe").
Proof.
  intros Hprinter Hname Hrun Hlines Hplain Hnone.
  apply (OpenDrawerHandler_check_fails env ParseRequestURI pdfPrinterPath
           drawerCommandPath out req w Hprinter Hrun).
  destruct (anyListed (printerLines out) (Drawer_Printer req)) eqn:Hlisted;
    [|reflexivity].
  apply (anyListed_rows out rows _ Hlines Hplain Hname) in Hlisted
    as (r & Hr & Hmatch).
  destruct (Hnone r Hr) as (Hn & Hd & Hp).
  destruct Hmatch as [H | [H | H]]; contradiction.
Qed.

Lemma OpenDrawerHandler_unknown_printer_witness :
  exists reply,
    OpenDrawerHandler
      (mainHandlers
         (sampleEnv sampleOutput (Ok okResponse) "/tmp/1.pdf" None None)
         sampleParseRequestURI "./PDFtoPrinter.exe" "./drawer_open_command.txt")
      {| Drawer_Method := "POST";
         Drawer_Body := Ok {| Drawer_Printer := "Ghost" |} |} emptyWorld
    = (reply,
       {| trace :=
            [ EvLog "[INFO] Received request: /open-box";
              EvExec "powershell" listPrintersArgs;
              EvLog "[ERROR] Error al abrir el cajón: la impresora 'Ghost' no existe" ];
          files := ∅ |}) /\
    reply_status reply = 500%Z /\
    reply_body reply !! "error" = Some "Error al abrir el cajón" /\
    reply_body reply !! "details" = Some "la impresora 'Ghost' no existe".
Proof.
  apply (OpenDrawerHandler_unknown_printer
           (sampleEnv sampleOutput (Ok okResponse) "/tmp/1.pdf" None None)
           sampleParseRequestURI "./PDFtoPrinter.exe"
           "./drawer_open_command.txt" sampleOutput
           [ {| Row_Name := "HP"; Row_DriverName := "HP2";
                Row_PortName := "USB001"; Row_PrinterStatus := "Normal";
                Row_Location := EmptyString |} ]
           {| Drawer_Printer := "Ghost" |} emptyWorld).
  - discriminate.
  - split; reflexivity.
  - reflexivity.
  - vm_compute. reflexivity.
  - repeat constructor.
  - intros r Hr. apply list_elem_of_singleton in Hr as ->.
    repeat split; discriminate.
Defined.
